(** * CDMABuffer: shallow embedding of src/protocols/types/DMABuffer.cpp

    The buffer object, its constructor (import orchestration, CPU-copy
    materializer, zero-copy importer), the release path and the fence
    exporter are translated function by function.  Everything the C++
    code asks of the outside world (mmap, DRM, GL, EGL, ioctl, poll,
    getenv) is an explicit answer supplied by an environment record, and
    everything it does to the outside world is appended to a trace of
    events, so that ordering claims can be stated on the trace. *)

From Stdlib Require Import ZArith List Bool Lia String.
From stdpp Require Import base list.
Import ListNotations.

Local Open Scope Z_scope.
Local Open Scope list_scope.

(** ** Constants of the headers the file includes *)

Module Consts.

(** drm_fourcc.h: [fourcc_code(a,b,c,d) = a | b<<8 | c<<16 | d<<24]. *)
Definition fourcc_code (a b c d : Z) : Z :=
  Z.lor (Z.lor a (Z.shiftl b 8)) (Z.lor (Z.shiftl c 16) (Z.shiftl d 24)).

Definition DRM_FORMAT_ARGB8888 : Z := Eval cbv in fourcc_code 65 82 50 52.
Definition DRM_FORMAT_XRGB8888 : Z := Eval cbv in fourcc_code 88 82 50 52.
Definition DRM_FORMAT_ABGR8888 : Z := Eval cbv in fourcc_code 65 66 50 52.
Definition DRM_FORMAT_XBGR8888 : Z := Eval cbv in fourcc_code 88 66 50 52.
Definition DRM_FORMAT_RGB888   : Z := Eval cbv in fourcc_code 82 71 50 52.
Definition DRM_FORMAT_BGR888   : Z := Eval cbv in fourcc_code 66 71 50 52.

(** [DRM_FORMAT_MOD_INVALID = 0x00ffffffffffffff]. *)
Definition DRM_FORMAT_MOD_INVALID : Z := 2 ^ 56 - 1.

Definition GL_NO_ERROR          : Z := 0.
Definition GL_TEXTURE_2D        : Z := 3553.   (* 0x0DE1 *)
Definition GL_UNPACK_ROW_LENGTH : Z := 3314.   (* 0x0CF2 *)
Definition GL_UNSIGNED_BYTE     : Z := 5121.   (* 0x1401 *)
Definition GL_RGB               : Z := 6407.   (* 0x1907 *)
Definition GL_RGBA              : Z := 6408.   (* 0x1908 *)
Definition GL_BGRA_EXT          : Z := 32993.  (* 0x80E1 *)
Definition GL_LINEAR            : Z := 9729.   (* 0x2601 *)
Definition GL_CLAMP_TO_EDGE     : Z := 33071.  (* 0x812F *)
Definition GL_TEXTURE_MAG_FILTER : Z := 10240. (* 0x2800 *)
Definition GL_TEXTURE_MIN_FILTER : Z := 10241. (* 0x2801 *)
Definition GL_TEXTURE_WRAP_S    : Z := 10242.  (* 0x2802 *)
Definition GL_TEXTURE_WRAP_T    : Z := 10243.  (* 0x2803 *)

Definition EINTR  : Z := 4.
Definition EAGAIN : Z := 11.

End Consts.
Import Consts.

(** ** Data model *)

(** [Aquamarine::SDMABUFAttrs] as this file uses it.  The three per-plane
    arrays are [std::array<_, 4>]; they are lists here and read with
    [slot], which is [arr[i]] inside the array. *)
Record SDMABUFAttrs : Type := mkAttrs {
  size_x       : Z;        (* size.x, an integral pixel width  *)
  size_y       : Z;        (* size.y, an integral pixel height *)
  format       : Z;        (* uint32_t fourcc                  *)
  modifier     : Z;        (* uint64_t                         *)
  planes       : Z;        (* int                              *)
  offsets      : list Z;   (* std::array<uint32_t, 4>          *)
  strides      : list Z;   (* std::array<uint32_t, 4>          *)
  fds          : list Z;   (* std::array<int, 4>, -1 = no fd   *)
  crossGPU     : bool;
  sourceDevice : Z         (* int, negative = unknown          *)
}.

Definition slot (arr : list Z) (i : nat) : Z := default 0 (arr !! i).

Definition set_fds (a : SDMABUFAttrs) (l : list Z) : SDMABUFAttrs :=
  mkAttrs (size_x a) (size_y a) (format a) (modifier a) (planes a)
          (offsets a) (strides a) l (crossGPU a) (sourceDevice a).

Definition set_planes (a : SDMABUFAttrs) (n : Z) : SDMABUFAttrs :=
  mkAttrs (size_x a) (size_y a) (format a) (modifier a) n
          (offsets a) (strides a) (fds a) (crossGPU a) (sourceDevice a).

Definition set_modifier (a : SDMABUFAttrs) (m : Z) : SDMABUFAttrs :=
  mkAttrs (size_x a) (size_y a) (format a) m (planes a)
          (offsets a) (strides a) (fds a) (crossGPU a) (sourceDevice a).

Inductive eTextureType : Type := TEXTURE_RGBA | TEXTURE_RGBX.

(** [CTexture], the fields this file writes. *)
Record CTexture : Type := mkTexture {
  m_texID         : Z;
  m_texSize       : Z * Z;
  m_target        : Z;
  m_isSynchronous : bool;
  m_type          : eTextureType;
  m_eglImage      : option Z     (* the wrapped image, zero-copy path only *)
}.

(** [CDMABuffer].  [m_resource] and [resourceDestroy] record whether the
    protocol resource is attached and whether the destroy listener is
    still registered; [size] is the member inherited from the buffer
    interface. *)
Record CDMABuffer : Type := mkBuffer {
  m_attrs         : SDMABUFAttrs;
  m_texture       : option CTexture;
  m_opaque        : bool;
  m_success       : bool;
  m_resource      : bool;
  resourceDestroy : bool;
  size            : Z * Z
}.

Definition with_attrs (b : CDMABuffer) (a : SDMABUFAttrs) : CDMABuffer :=
  mkBuffer a (m_texture b) (m_opaque b) (m_success b) (m_resource b) (resourceDestroy b) (size b).

Definition with_texture (b : CDMABuffer) (t : option CTexture) : CDMABuffer :=
  mkBuffer (m_attrs b) t (m_opaque b) (m_success b) (m_resource b) (resourceDestroy b) (size b).

Definition with_opaque (b : CDMABuffer) (o : bool) : CDMABuffer :=
  mkBuffer (m_attrs b) (m_texture b) o (m_success b) (m_resource b) (resourceDestroy b) (size b).

Definition with_success (b : CDMABuffer) (s : bool) : CDMABuffer :=
  mkBuffer (m_attrs b) (m_texture b) (m_opaque b) s (m_resource b) (resourceDestroy b) (size b).

Definition with_listener (b : CDMABuffer) (l : bool) : CDMABuffer :=
  mkBuffer (m_attrs b) (m_texture b) (m_opaque b) (m_success b) (m_resource b) l (size b).

(** ** Events *)

Inductive log_level : Type := LOG | WARN | ERR.

Inductive ioctl_request : Type :=
| DMA_BUF_IOCTL_EXPORT_SYNC_FILE
| SYNC_IOC_MERGE (fd2 : Z).

(** What the code does to the outside world, in program order.  A call
    whose answer matters for a later claim carries the answer. *)
Inductive event : Type :=
| EvLog (lvl : log_level) (msg : string)
| EvMakeEGLCurrent
| EvClose (fd : Z)
| EvListenerReset
| EvSendRelease
| EvMmap (len fd off : Z) (res : option Z)
| EvMunmap (addr len : Z)
| EvPrimeFDToHandle (dev fd : Z) (res : option Z)
| EvMapDumb (dev handle : Z) (res : option Z)
| EvCloseBufferHandle (dev handle : Z)
| EvGenTextures (res : Z)
| EvBindTexture (target id : Z)
| EvTexParameteri (target pname param : Z)
| EvPixelStorei (pname param : Z)
| EvTexImage2D (width height glFormat glType data : Z)
| EvGetError (res : Z)
| EvDeleteTextures (id : Z)
| EvCreateEGLImage (a : SDMABUFAttrs)
| EvIsReadable (fd : Z)
| EvIoctl (fd : Z) (req : ioctl_request).

Definition trace : Type := list event.

(** A computation that returns a value and the events it performed. *)
Definition Eff (A : Type) : Type := A * trace.

Definition ret {A} (a : A) : Eff A := (a, []).

Definition bind {A B} (m : Eff A) (f : A -> Eff B) : Eff B :=
  let (a, t) := m in let (b, t') := f a in (b, t ++ t').

Definition emit (e : event) : Eff unit := (tt, [e]).

Declare Scope eff_scope.
Delimit Scope eff_scope with eff.
Notation "x <- c1 ;; c2" := (bind c1 (fun x => c2))
  (at level 100, c1 at next level, right associativity) : eff_scope.
Notation "c1 ;;; c2" := (bind c1 (fun _ => c2))
  (at level 100, right associativity) : eff_scope.

Definition log (lvl : log_level) (msg : string) : Eff unit := emit (EvLog lvl msg).

(** ** Release path *)

(** The loop of [closeFDs], [for (int i = 0; i < m_attrs.planes; ++i)],
    unrolled over the [n] remaining iterations starting at index [i].
    The source indexes a four-slot array; an index past the array is
    undefined there and leaves the descriptors untouched here. *)
Fixpoint closeFDs_loop (n : nat) (i : nat) (l : list Z) : Eff (list Z) :=
  match n with
  | O => ret l
  | S n' =>
      match l !! i with
      | Some fd =>
          if fd =? -1 then closeFDs_loop n' (S i) l
          else (emit (EvClose fd) ;;; closeFDs_loop n' (S i) (<[i := -1]> l))%eff
      | None => closeFDs_loop n' (S i) l
      end
  end.

Definition closeFDs (b : CDMABuffer) : Eff CDMABuffer :=
  (l <- closeFDs_loop (Z.to_nat (planes (m_attrs b))) 0 (fds (m_attrs b)) ;;
   ret (with_attrs b (set_planes (set_fds (m_attrs b) l) 0)))%eff.

(** The listener installed by the constructor:
    [events.destroy.listen([this] { closeFDs(); m_listeners.resourceDestroy.reset(); })]. *)
Definition onResourceDestroy (b : CDMABuffer) : Eff CDMABuffer :=
  (b1 <- closeFDs b ;;
   emit EvListenerReset ;;;
   ret (with_listener b1 false))%eff.

(** [CDMABuffer::~CDMABuffer]. *)
Definition destructor (b : CDMABuffer) : Eff CDMABuffer :=
  ((if m_resource b then emit EvSendRelease else ret tt) ;;;
   closeFDs b)%eff.

(** ** Query interface *)

Inductive eBufferCapability : Type :=
| BUFFER_CAPABILITY_NONE
| BUFFER_CAPABILITY_DATAPTR.

Inductive eBufferType : Type :=
| BUFFER_TYPE_DMABUF_DIR_SCANOUT
| BUFFER_TYPE_SHM
| BUFFER_TYPE_DMABUF
| BUFFER_TYPE_MISC.

Definition caps (b : CDMABuffer) : eBufferCapability := BUFFER_CAPABILITY_DATAPTR.

Definition type (b : CDMABuffer) : eBufferType := BUFFER_TYPE_DMABUF.

Definition update (b : CDMABuffer) (damage : list (Z * Z * Z * Z)) : Eff CDMABuffer := ret b.

Definition isSynchronous (b : CDMABuffer) : bool := false.

Definition dmabuf (b : CDMABuffer) : SDMABUFAttrs := m_attrs b.

(** [beginDataPtr] returns [{nullptr, 0, 0}]; the pointer is [None] for
    [nullptr]. *)
Definition beginDataPtr (b : CDMABuffer) (flags : Z) : Eff (option Z * Z * Z) :=
  ret (None, 0, 0).

Definition endDataPtr (b : CDMABuffer) : Eff CDMABuffer := ret b.

Definition good (b : CDMABuffer) : bool := m_success b.

(** ** Environment *)

(** The answers of the outside world.  Each field is the answer at one
    call site of the source; theorems quantify over all of them.  Files
    of the repository that are not part of this unit ([Format.cpp],
    [Texture.cpp], the headers) contribute the fields [isFormatOpaque],
    [makeTexture] and [default_opaque]. *)
Record Env : Type := mkEnv {
  linux                : bool;            (* defined(__linux__) *)
  ENABLE_CPU_FALLBACK  : bool;            (* getenv(HYPRLAND_DMABUF_ENABLE_CPU_FALLBACK) != NULL  *)
  DISABLE_CPU_FALLBACK : bool;            (* getenv(HYPRLAND_DMABUF_DISABLE_CPU_FALLBACK) != NULL *)
  DMABUF_LOG           : bool;            (* getenv(HYPRLAND_DMABUF_LOG) != NULL                  *)
  secondaryAvailable   : bool;            (* g_pCompositor->m_secondaryDrmRenderNode.available    *)
  default_opaque       : bool;            (* the member initialiser of m_opaque                   *)
  isFormatOpaque       : Z -> bool;       (* NFormatUtils::isFormatOpaque                         *)
  mmap_dmabuf          : option Z;        (* mmap of the plane fd; None = MAP_FAILED              *)
  primeFDToHandle      : option Z;        (* drmPrimeFDToHandle; Some handle when it returns 0    *)
  mapDumb              : option Z;        (* DRM_IOCTL_MODE_MAP_DUMB; Some offset when 0          *)
  mmap_device          : option Z;        (* mmap through the device; None = MAP_FAILED           *)
  genTextures          : Z;               (* the id glGenTextures writes, 0 on failure            *)
  getError             : Z;               (* glGetError                                           *)
  createEGLImage       : nat -> SDMABUFAttrs -> option Z;
                                          (* g_pHyprOpenGL->createEGLImage, by call number        *)
  makeTexture          : SDMABUFAttrs -> Z -> CTexture;
                                          (* CTexture(attrs, eglImage)                            *)
  rendererPresent      : bool;            (* g_pHyprRenderer != nullptr                           *)
  isIntel              : bool;            (* g_pHyprRenderer->isIntel()                           *)
  isReadable           : Z -> bool        (* CFileDescriptor::isReadable(fd)                      *)
}.

(** ** Cross-device materializer *)

Definition to_size_t (z : Z) : Z := z mod 2 ^ 64.
Definition to_uint32 (z : Z) : Z := z mod 2 ^ 32.

(** [m_attrs.strides[0] * static_cast<size_t>(m_attrs.size.y)]. *)
Definition bufferSize (a : SDMABUFAttrs) : Z :=
  to_size_t (slot (strides a) 0 * to_size_t (size_y a)).

(** Lines 232-270: the two-stage mapping.  [None] is the early
    [return false]. *)
Definition mapPlane (env : Env) (a : SDMABUFAttrs) : Eff (option Z) :=
  (emit (EvMmap (bufferSize a) (slot (fds a) 0) (slot (offsets a) 0) (mmap_dmabuf env)) ;;;
   match mmap_dmabuf env with
   | Some mapped => ret (Some mapped)
   | None =>
       log ERR "Cross-GPU: Failed to mmap dmabuf fd (errno: {}), trying DRM handle path" ;;;
       if sourceDevice a <? 0 then
         log ERR "Cross-GPU: No source device available for DRM handle mapping" ;;;
         ret None
       else
         emit (EvPrimeFDToHandle (sourceDevice a) (slot (fds a) 0) (primeFDToHandle env)) ;;;
         match primeFDToHandle env with
         | None =>
             log ERR "Cross-GPU: drmPrimeFDToHandle failed" ;;;
             ret None
         | Some handle =>
             emit (EvMapDumb (sourceDevice a) handle (mapDumb env)) ;;;
             match mapDumb env with
             | None =>
                 log ERR "Cross-GPU: DRM_IOCTL_MODE_MAP_DUMB failed" ;;;
                 emit (EvCloseBufferHandle (sourceDevice a) handle) ;;;
                 ret None
             | Some offset =>
                 emit (EvMmap (bufferSize a) (sourceDevice a) offset (mmap_device env)) ;;;
                 emit (EvCloseBufferHandle (sourceDevice a) handle) ;;;
                 match mmap_device env with
                 | None =>
                     log ERR "Cross-GPU: mmap via DRM handle failed" ;;;
                     ret None
                 | Some mapped => ret (Some mapped)
                 end
             end
         end
   end)%eff.

(** The outcome of the first [switch (m_attrs.format)]. *)
Inductive upload_layout : Type :=
| Layout (glFormat glType bpp : Z)
| UnsupportedBGR888
| UnsupportedFormat.

Definition uploadLayout (fmt : Z) : upload_layout :=
  if (fmt =? DRM_FORMAT_ARGB8888) || (fmt =? DRM_FORMAT_XRGB8888) then
    Layout GL_BGRA_EXT GL_UNSIGNED_BYTE 4
  else if (fmt =? DRM_FORMAT_ABGR8888) || (fmt =? DRM_FORMAT_XBGR8888) then
    Layout GL_RGBA GL_UNSIGNED_BYTE 4
  else if fmt =? DRM_FORMAT_RGB888 then
    Layout GL_RGB GL_UNSIGNED_BYTE 3
  else if fmt =? DRM_FORMAT_BGR888 then UnsupportedBGR888
  else UnsupportedFormat.

(** The second [switch (m_attrs.format)]. *)
Definition textureType (fmt : Z) : eTextureType :=
  if (fmt =? DRM_FORMAT_XRGB8888) || (fmt =? DRM_FORMAT_XBGR8888) || (fmt =? DRM_FORMAT_RGB888)
  then TEXTURE_RGBX else TEXTURE_RGBA.

(** Lines 307-365: texture creation, upload, unmapping, error check. *)
Definition uploadMapped (env : Env) (b : CDMABuffer) (mapped glFormat glType bpp : Z)
  : Eff (bool * CDMABuffer) :=
  let a := m_attrs b in
  let texID := genTextures env in
  (emit (EvGenTextures texID) ;;;
   if texID =? 0 then
     log ERR "Cross-GPU: glGenTextures failed" ;;;
     emit (EvMunmap mapped (bufferSize a)) ;;;
     ret (false, b)
   else
     emit (EvBindTexture GL_TEXTURE_2D texID) ;;;
     emit (EvTexParameteri GL_TEXTURE_2D GL_TEXTURE_MIN_FILTER GL_LINEAR) ;;;
     emit (EvTexParameteri GL_TEXTURE_2D GL_TEXTURE_MAG_FILTER GL_LINEAR) ;;;
     emit (EvTexParameteri GL_TEXTURE_2D GL_TEXTURE_WRAP_S GL_CLAMP_TO_EDGE) ;;;
     emit (EvTexParameteri GL_TEXTURE_2D GL_TEXTURE_WRAP_T GL_CLAMP_TO_EDGE) ;;;
     let expectedStride := size_x a * bpp in
     (if negb (slot (strides a) 0 =? to_uint32 expectedStride)
      then emit (EvPixelStorei GL_UNPACK_ROW_LENGTH (slot (strides a) 0 / bpp))
      else ret tt) ;;;
     emit (EvTexImage2D (size_x a) (size_y a) glFormat glType mapped) ;;;
     emit (EvPixelStorei GL_UNPACK_ROW_LENGTH 0) ;;;
     emit (EvBindTexture GL_TEXTURE_2D 0) ;;;
     emit (EvMunmap mapped (bufferSize a)) ;;;
     emit (EvGetError (getError env)) ;;;
     if negb (getError env =? GL_NO_ERROR) then
       log ERR "Cross-GPU: GL error after texture upload: 0x{:x}" ;;;
       emit (EvDeleteTextures texID) ;;;
       ret (false, b)
     else
       let tex := mkTexture texID (size_x a, size_y a) GL_TEXTURE_2D true
                            (textureType (format a)) None in
       log LOG "Cross-GPU: Created texture {} ({}x{}) via CPU copy" ;;;
       ret (true, with_texture b (Some tex)))%eff.

(** [CDMABuffer::createCrossGPUTexture]. *)
Definition createCrossGPUTexture (env : Env) (b : CDMABuffer) : Eff (bool * CDMABuffer) :=
  let a := m_attrs b in
  if negb (linux env) then ret (false, b)
  else if negb (planes a =? 1) then
    (log ERR "Cross-GPU: Multi-plane buffers not yet supported" ;;;
     ret (false, b))%eff
  else if bufferSize a =? 0 then
    (log ERR "Cross-GPU: Invalid buffer size" ;;;
     ret (false, b))%eff
  else
    (m <- mapPlane env a ;;
     match m with
     | None => ret (false, b)
     | Some mapped =>
         match uploadLayout (format a) with
         | UnsupportedBGR888 =>
             log ERR "Cross-GPU: BGR888 format not supported in GLES" ;;;
             emit (EvMunmap mapped (bufferSize a)) ;;;
             ret (false, b)
         | UnsupportedFormat =>
             log ERR "Cross-GPU: Unsupported DRM format 0x{:x}" ;;;
             emit (EvMunmap mapped (bufferSize a)) ;;;
             ret (false, b)
         | Layout glFormat glType bpp => uploadMapped env b mapped glFormat glType bpp
         end
     end)%eff.

(** ** Zero-copy importer and constructor *)

(** Lines 82-87: wrap the image in a texture and set the two flags. *)
Definition adoptImage (env : Env) (b : CDMABuffer) (eglImage : Z) : Eff CDMABuffer :=
  let tex := makeTexture env (m_attrs b) eglImage in
  let b1 := with_texture b (Some tex) in
  let b2 := with_opaque b1 (isFormatOpaque env (format (m_attrs b1))) in
  let b3 := with_success b2 (negb (m_texID tex =? 0)) in
  ((if negb (m_success b3)
    then log ERR "Failed to create a dmabuf: texture is null"
    else ret tt) ;;;
   ret b3)%eff.

(** Lines 63-88 of the constructor. *)
Definition importEGLImage (env : Env) (b : CDMABuffer) : Eff CDMABuffer :=
  let logDMABUF := DMABUF_LOG env in
  (emit (EvCreateEGLImage (m_attrs b)) ;;;
   match createEGLImage env 0%nat (m_attrs b) with
   | Some eglImage => adoptImage env b eglImage
   | None =>
       (if logDMABUF && negb (modifier (m_attrs b) =? DRM_FORMAT_MOD_INVALID)
        then log WARN "CDMABuffer: dmabuf import failed with modifier {} (0x{:x}), retrying without modifier"
        else ret tt) ;;;
       log ERR "CDMABuffer: failed to import EGLImage, retrying as implicit" ;;;
       let b1 := with_attrs b (set_modifier (m_attrs b) DRM_FORMAT_MOD_INVALID) in
       emit (EvCreateEGLImage (m_attrs b1)) ;;;
       match createEGLImage env 1%nat (m_attrs b1) with
       | Some eglImage => adoptImage env b1 eglImage
       | None =>
           log ERR "CDMABuffer: failed to import EGLImage" ;;;
           (if logDMABUF
            then log ERR "CDMABuffer: dmabuf import failed even without modifier"
            else ret tt) ;;;
           ret b1
       end
   end)%eff.

Definition allowCPUFallback (env : Env) : bool :=
  ENABLE_CPU_FALLBACK env && negb (DISABLE_CPU_FALLBACK env).

(** The condition of line 40. *)
Definition useCPUFallback (env : Env) (a : SDMABUFAttrs) : bool :=
  crossGPU a && secondaryAvailable env && allowCPUFallback env.

(** Modelled from the spec: the member initialisers of DMABuffer.hpp and
    Buffer.hpp, which are not part of this unit.  The spec has a buffer
    whose import failed report [success = false] with no texture
    attached; the initial value of [m_opaque] is left to the environment.
    The listener of lines 26-29 is registered, [size] is copied from the
    descriptor (line 31) and the protocol resource is created (line 32). *)
Definition newBuffer (env : Env) (attrs_ : SDMABUFAttrs) : CDMABuffer :=
  mkBuffer attrs_ None (default_opaque env) false true true (size_x attrs_, size_y attrs_).

(** [CDMABuffer::CDMABuffer]. *)
Definition constructor (env : Env) (attrs_ : SDMABUFAttrs) : Eff CDMABuffer :=
  let b := newBuffer env attrs_ in
  (emit EvMakeEGLCurrent ;;;
   if useCPUFallback env (m_attrs b) then
     log LOG "CDMABuffer: Cross-GPU buffer detected, using CPU copy fallback (opt-in)" ;;;
     r <- createCrossGPUTexture env b ;;
     let (ok, b1) := r in
     if negb ok then
       log ERR "CDMABuffer: Cross-GPU fallback failed, trying EGLImage anyway" ;;;
       importEGLImage env b1
     else
       let b2 := with_opaque b1 (isFormatOpaque env (format (m_attrs b1))) in
       let b3 := with_success b2 (match m_texture b2 with
                                  | Some tex => negb (m_texID tex =? 0)
                                  | None => false
                                  end) in
       if m_success b3 then
         log LOG "CDMABuffer: Cross-GPU texture created successfully via CPU copy" ;;;
         ret b3
       else importEGLImage env b3
   else
     (if crossGPU (m_attrs b) && secondaryAvailable env && negb (allowCPUFallback env)
      then log LOG "CDMABuffer: Cross-GPU buffer detected, CPU fallback disabled; trying EGL import"
      else ret tt) ;;;
     importEGLImage env b)%eff.

(** ** Fence exporter *)

(** One answer of the kernel to one [ioctl]: the return value, [errno],
    and the descriptor it wrote into the request. *)
Record reply : Type := mkReply { r_ret : Z; r_errno : Z; r_out : Z }.

(** The kernel as the sequence of its answers to the ioctls still to
    come; a request made after the last answer fails for good. *)
Definition script : Type := list reply.

(** [doIoctl]: repeat the request while it fails with [EINTR] or
    [EAGAIN].  Returns the final return value, the descriptor written,
    and the answers not yet consumed. *)
Fixpoint doIoctl (fd : Z) (request : ioctl_request) (k : script) : Eff (Z * Z * script) :=
  match k with
  | [] => (emit (EvIoctl fd request) ;;; ret (-1, -1, []))%eff
  | r :: k' =>
      (emit (EvIoctl fd request) ;;;
       if (r_ret r =? -1) && ((r_errno r =? EINTR) || (r_errno r =? EAGAIN))
       then doIoctl fd request k'
       else ret (r_ret r, r_out r, k'))%eff
  end.

(** [CFileDescriptor]: an owned descriptor, [-1] when empty.  The
    closing that the wrapper does when it is overwritten or goes out of
    scope happens inside that class and is not part of the trace. *)
Definition isValid (fd : Z) : bool := negb (fd =? -1).

(** Lines 161-179: the loop over [m_attrs.fds] collecting [syncFds]. *)
Fixpoint collectSyncFds (env : Env) (l : list Z) (k : script) : Eff (list Z * script) :=
  match l with
  | [] => ret ([], k)
  | fd :: rest =>
      if fd =? -1 then collectSyncFds env rest k
      else
        (readable <- (if rendererPresent env && negb (isIntel env)
                      then emit (EvIsReadable fd) ;;; ret (isReadable env fd)
                      else ret false) ;;
         if readable then collectSyncFds env rest k
         else
           r <- doIoctl fd DMA_BUF_IOCTL_EXPORT_SYNC_FILE k ;;
           let '(res, request_fd, k1) := r in
           p <- collectSyncFds env rest k1 ;;
           let (more, k2) := p in
           if res =? 0 then ret (request_fd :: more, k2) else ret (more, k2))%eff
  end.

(** Lines 184-204: the merge loop, with [syncFd] the accumulator. *)
Fixpoint mergeSyncFds (syncFd : Z) (syncFds : list Z) (k : script) : Eff (Z * script) :=
  match syncFds with
  | [] => ret (syncFd, k)
  | fd :: rest =>
      if negb (isValid syncFd) then mergeSyncFds fd rest k
      else
        (r <- doIoctl syncFd (SYNC_IOC_MERGE fd) k ;;
         let '(res, data_fence, k1) := r in
         if res =? 0 then mergeSyncFds data_fence rest k1
         else mergeSyncFds (-1) rest k1)%eff
  end.

(** [CDMABuffer::exportSyncFile]; the empty descriptor is [-1]. *)
Definition exportSyncFile (env : Env) (b : CDMABuffer) (k : script) : Eff (Z * script) :=
  if negb (good b) then ret (-1, k)
  else if negb (linux env) then ret (-1, k)
  else
    (p <- collectSyncFds env (fds (m_attrs b)) k ;;
     let (syncFds, k1) := p in
     match syncFds with
     | [] => ret (-1, k1)
     | _ :: _ => mergeSyncFds (-1) syncFds k1
     end)%eff.

(** ** Reading a trace *)

Definition is_log (e : event) : bool :=
  match e with EvLog _ _ => true | _ => false end.

(** The trace without its log lines. *)
Definition actions (t : trace) : trace := List.filter (fun e => negb (is_log e)) t.

(** The descriptors closed, in order. *)
Fixpoint closes (t : trace) : list Z :=
  match t with
  | [] => []
  | EvClose fd :: t' => fd :: closes t'
  | _ :: t' => closes t'
  end.

(** The descriptors sent to [createEGLImage], in order. *)
Fixpoint eglRequests (t : trace) : list SDMABUFAttrs :=
  match t with
  | [] => []
  | EvCreateEGLImage a :: t' => a :: eglRequests t'
  | _ :: t' => eglRequests t'
  end.

(** Events only the zero-copy importer performs. *)
Definition is_zero_copy_event (e : event) : bool :=
  match e with EvCreateEGLImage _ => true | _ => false end.

(** Events only [createCrossGPUTexture] performs: its system calls, its
    GL calls and its log lines, which all start with [Cross-GPU:]. *)
Definition is_materializer_event (e : event) : bool :=
  match e with
  | EvLog _ msg => String.prefix "Cross-GPU:" msg
  | EvMmap _ _ _ _ | EvMunmap _ _
  | EvPrimeFDToHandle _ _ _ | EvMapDumb _ _ _ | EvCloseBufferHandle _ _
  | EvGenTextures _ | EvBindTexture _ _ | EvTexParameteri _ _ _
  | EvPixelStorei _ _ | EvTexImage2D _ _ _ _ _ | EvGetError _
  | EvDeleteTextures _ => true
  | _ => false
  end.

Definition is_mmap (e : event) : bool :=
  match e with EvMmap _ _ _ _ => true | _ => false end.

Definition same_mapping (m1 m2 : Z * Z) : bool :=
  (fst m1 =? fst m2) && (snd m1 =? snd m2).

Fixpoint remove_first {A} (eqb : A -> A -> bool) (x : A) (l : list A) : list A :=
  match l with
  | [] => []
  | y :: l' => if eqb x y then l' else y :: remove_first eqb x l'
  end.

(** The mappings (address, length) created and not yet unmapped after
    the trace has run, starting from the mappings [live]. *)
Fixpoint liveMappings (live : list (Z * Z)) (t : trace) : list (Z * Z) :=
  match t with
  | [] => live
  | EvMmap len _ _ (Some addr) :: t' => liveMappings ((addr, len) :: live) t'
  | EvMunmap addr len :: t' => liveMappings (remove_first same_mapping (addr, len) live) t'
  | _ :: t' => liveMappings live t'
  end.

(** The device-local handles (device, handle) obtained and not yet
    released after the trace has run. *)
Fixpoint openHandles (open : list (Z * Z)) (t : trace) : list (Z * Z) :=
  match t with
  | [] => open
  | EvPrimeFDToHandle dev _ (Some h) :: t' => openHandles ((dev, h) :: open) t'
  | EvCloseBufferHandle dev h :: t' => openHandles (remove_first same_mapping (dev, h) open) t'
  | _ :: t' => openHandles open t'
  end.

(** The actions that follow the dumb-buffer mapping request, if the
    trace has one. *)
Fixpoint afterMapDumb (t : trace) : option trace :=
  match t with
  | [] => None
  | EvMapDumb _ _ _ :: t' => Some t'
  | _ :: t' => afterMapDumb t'
  end.

(** The handle is released at once: the action next to the mapping
    request releases a handle. *)
Definition releasedAtOnce (t : trace) : bool :=
  match afterMapDumb (actions t) with
  | None => true
  | Some (EvCloseBufferHandle _ _ :: _) => true
  | Some _ => false
  end.

(** The line the constructor logs right before it calls
    [createCrossGPUTexture]. *)
Definition cpuFallbackLog : event :=
  EvLog LOG "CDMABuffer: Cross-GPU buffer detected, using CPU copy fallback (opt-in)".

Definition cpuFallbackFailedLog : event :=
  EvLog ERR "CDMABuffer: Cross-GPU fallback failed, trying EGLImage anyway".

(** Whether the loop of [exportSyncFile] probes readability first:
    [g_pHyprRenderer && !g_pHyprRenderer->isIntel()]. *)
Definition probesReadability (env : Env) : bool :=
  rendererPresent env && negb (isIntel env).

(** No plane yields a fence: every slot holds the sentinel, or is
    skipped because it is already readable, or its export request
    fails.  The kernel answers are consumed slot by slot. *)
Inductive NoFence (env : Env) : list Z -> script -> Prop :=
| NoFence_nil k : NoFence env [] k
| NoFence_invalid rest k :
    NoFence env rest k -> NoFence env (-1 :: rest) k
| NoFence_readable fd rest k :
    fd <> -1 -> probesReadability env = true -> isReadable env fd = true ->
    NoFence env rest k -> NoFence env (fd :: rest) k
| NoFence_failed fd rest k :
    fd <> -1 -> probesReadability env && isReadable env fd = false ->
    fst (fst (fst (doIoctl fd DMA_BUF_IOCTL_EXPORT_SYNC_FILE k))) <> 0 ->
    NoFence env rest (snd (fst (doIoctl fd DMA_BUF_IOCTL_EXPORT_SYNC_FILE k))) ->
    NoFence env (fd :: rest) k.

(** ** Concrete inputs *)

Module Examples.

(** A classifier of alpha-less formats for the formats this file
    names: the X-channel and three-byte layouts. *)
Definition alphaLess (fmt : Z) : bool :=
  (fmt =? DRM_FORMAT_XRGB8888) || (fmt =? DRM_FORMAT_XBGR8888)
  || (fmt =? DRM_FORMAT_RGB888) || (fmt =? DRM_FORMAT_BGR888).

(** The texture the zero-copy path wraps around an image; identity 7. *)
Definition wrapImage (a : SDMABUFAttrs) (img : Z) : CTexture :=
  mkTexture 7 (size_x a, size_y a) GL_TEXTURE_2D false
            (if alphaLess (format a) then TEXTURE_RGBX else TEXTURE_RGBA) (Some img).

(** One plane, 64x64, XRGB8888, stride 256, descriptor 5, a vendor
    modifier, source device 9. *)
Definition attrs1 : SDMABUFAttrs :=
  mkAttrs 64 64 DRM_FORMAT_XRGB8888 72057594037927937 1
          [0; 0; 0; 0] [256; 0; 0; 0] [5; -1; -1; -1] true 9.

(** The same descriptor with an alpha channel. *)
Definition attrs1_alpha : SDMABUFAttrs :=
  mkAttrs 64 64 DRM_FORMAT_ARGB8888 72057594037927937 1
          [0; 0; 0; 0] [256; 0; 0; 0] [5; -1; -1; -1] true 9.

(** Two planes. *)
Definition attrs2 : SDMABUFAttrs :=
  mkAttrs 64 64 DRM_FORMAT_XRGB8888 72057594037927937 2
          [0; 0; 0; 0] [256; 256; 0; 0] [5; 6; -1; -1] true 9.

(** Three planes. *)
Definition attrs3 : SDMABUFAttrs :=
  mkAttrs 64 64 DRM_FORMAT_XRGB8888 72057594037927937 3
          [0; 0; 0; 0] [256; 256; 256; 0] [3; 4; 5; -1] false (-1).

(** Four planes. *)
Definition attrs4 : SDMABUFAttrs :=
  mkAttrs 64 64 DRM_FORMAT_XRGB8888 72057594037927937 4
          [0; 0; 0; 0] [256; 256; 256; 256] [3; 4; 5; 6] false (-1).

(** Direct mapping fails, the device path succeeds at every step, the
    upload succeeds; every image request fails. *)
Definition envDevicePath (dflt : bool) : Env :=
  mkEnv true true false false true dflt alphaLess
        None (Some 42) (Some 4096) (Some 139000) 3 GL_NO_ERROR
        (fun _ _ => None) wrapImage true true (fun _ => false).

(** Fallback not enabled; every image request fails. *)
Definition envImportFails (dflt : bool) : Env :=
  mkEnv true false false true true dflt alphaLess
        None None None None 0 GL_NO_ERROR
        (fun _ _ => None) wrapImage true true (fun _ => false).

(** Fallback not enabled; the first image request fails, the retry
    succeeds with image 11. *)
Definition envRetryWorks : Env :=
  mkEnv true false false true true false alphaLess
        None None None None 0 GL_NO_ERROR
        (fun n _ => match n with O => None | _ => Some 11 end)
        wrapImage true true (fun _ => false).

(** An Intel renderer on Linux: the fence exporter does not probe
    readability. *)
Definition envNoProbe : Env :=
  mkEnv true false false false false false alphaLess
        None None None None 0 GL_NO_ERROR
        (fun _ _ => Some 11) wrapImage true true (fun _ => false).

(** Another vendor: every plane is probed and found readable. *)
Definition envAllReadable : Env :=
  mkEnv true false false false false false alphaLess
        None None None None 0 GL_NO_ERROR
        (fun _ _ => Some 11) wrapImage true false (fun _ => true).

Definition imported (a : SDMABUFAttrs) : CDMABuffer :=
  mkBuffer a (Some (wrapImage a 11)) (alphaLess (format a)) true true true
         (size_x a, size_y a).

Definition failed (a : SDMABUFAttrs) : CDMABuffer :=
  mkBuffer a None false false true true (size_x a, size_y a).

Definition ok (fd : Z) : reply := mkReply 0 0 fd.
Definition interrupted : reply := mkReply (-1) EINTR (-1).
Definition refused : reply := mkReply (-1) 12 (-1).   (* ENOMEM *)

(** Three exports succeed with fences 10, 11, 12; the merge of 10 and
    11 is interrupted once and then fails. *)
Definition firstMergeFails : script :=
  [ok 10; ok 11; ok 12; interrupted; refused].

(** Four exports succeed; the merge of 10 and 11 fails, the merge of
    12 and 13 gives 20. *)
Definition firstMergeFails4 : script :=
  [ok 10; ok 11; ok 12; ok 13; refused; ok 20].

(** Three exports succeed and both merges succeed, giving 20 then 21. *)
Definition allMergesWork : script :=
  [ok 10; ok 11; ok 12; ok 20; ok 21].

(** Three exports succeed, the first merge gives 20, the last fails. *)
Definition lastMergeFails : script :=
  [ok 10; ok 11; ok 12; ok 20; refused].

End Examples.

(** ** Further readings of a trace and of the environment *)

(** The answers [doIoctl] asks again for: [ret == -1] with [errno] one
    of [EINTR], [EAGAIN]. *)
Definition is_transient (r : reply) : bool :=
  (r_ret r =? -1) && ((r_errno r =? EINTR) || (r_errno r =? EAGAIN)).


Definition formatSupported (fmt : Z) : bool :=
  match uploadLayout fmt with Layout _ _ _ => true | _ => false end.

Definition is_gl_event (e : event) : bool :=
  match e with
  | EvGenTextures _ | EvBindTexture _ _ | EvTexParameteri _ _ _
  | EvPixelStorei _ _ | EvTexImage2D _ _ _ _ _ | EvGetError _
  | EvDeleteTextures _ => true
  | _ => false
  end.

Definition is_drm_event (e : event) : bool :=
  match e with
  | EvPrimeFDToHandle _ _ _ | EvMapDumb _ _ _ | EvCloseBufferHandle _ _ => true
  | _ => false
  end.

Definition is_probe (e : event) : bool :=
  match e with EvIsReadable _ => true | _ => false end.

Definition is_warning (e : event) : bool :=
  match e with EvLog WARN _ => true | _ => false end.

(** The texture names generated and not yet deleted after the trace. *)
Fixpoint liveTextures (live : list Z) (t : trace) : list Z :=
  match t with
  | [] => live
  | EvGenTextures id :: t' =>
      if id =? 0 then liveTextures live t' else liveTextures (id :: live) t'
  | EvDeleteTextures id :: t' => liveTextures (remove_first Z.eqb id live) t'
  | _ :: t' => liveTextures live t'
  end.

(** The value of [GL_UNPACK_ROW_LENGTH] after the trace, from [cur]. *)
Fixpoint unpackRowLength (cur : Z) (t : trace) : Z :=
  match t with
  | [] => cur
  | EvPixelStorei pname param :: t' =>
      if pname =? GL_UNPACK_ROW_LENGTH then unpackRowLength param t'
      else unpackRowLength cur t'
  | _ :: t' => unpackRowLength cur t'
  end.

(** The texture bound to [GL_TEXTURE_2D] after the trace, from [cur]. *)
Fixpoint boundTexture (cur : Z) (t : trace) : Z :=
  match t with
  | [] => cur
  | EvBindTexture target id :: t' =>
      if target =? GL_TEXTURE_2D then boundTexture id t' else boundTexture cur t'
  | _ :: t' => boundTexture cur t'
  end.

(** The merge requests of a fold in which every merge is granted: the
    accumulator is the seed, then each merged fence in turn. *)
Definition mergeRequests (seed : Z) (merged syncFds : list Z) : trace :=
  zip_with (fun acc fd => EvIoctl acc (SYNC_IOC_MERGE fd)) (seed :: merged) syncFds.

(** The slots of the descriptor array that belong to no plane hold the
    sentinel, as the array is initialised. *)
Definition unusedSlotsEmpty (a : SDMABUFAttrs) : Prop :=
  forall (i : nat) (fd : Z),
    planes a <= Z.of_nat i -> fds a !! i = Some fd -> fd = -1.

Module Cases.

(** One plane in the three-byte BGR layout. *)
Definition attrsBGR : SDMABUFAttrs :=
  mkAttrs 64 64 DRM_FORMAT_BGR888 0 1
          [0; 0; 0; 0] [192; 0; 0; 0] [5; -1; -1; -1] true 9.

(** One plane, same device, implicit modifier. *)
Definition attrsImplicit : SDMABUFAttrs :=
  mkAttrs 64 64 DRM_FORMAT_XRGB8888 DRM_FORMAT_MOD_INVALID 1
          [0; 0; 0; 0] [256; 0; 0; 0] [5; -1; -1; -1] false (-1).


(** The direct mapping works and the upload succeeds with texture 3. *)
Definition envDirect : Env :=
  mkEnv true true false false true false Examples.alphaLess
        (Some 139000) None None None 3 GL_NO_ERROR
        (fun _ _ => None) Examples.wrapImage true true (fun _ => false).


(** Two granted merges giving 20 then 21, with one answer left over. *)
Definition twoMerges : list reply := [mkReply 0 0 20; mkReply 0 0 21].
Definition leftOver : script := [mkReply 0 0 99].

End Cases.

(** ** Release path: [closeFDs] *)

Section CloseFDs.

Implicit Types (l : list Z) (n i j : nat) (b : CDMABuffer).

Lemma closeFDs_loop_trace n : forall i l,
  snd (closeFDs_loop n i l) = map EvClose (List.filter isValid (take n (drop i l))).
Proof.
  induction n as [|n IH]; intros i l; simpl; [reflexivity|].
  destruct (l !! i) as [fd|] eqn:E.
  - rewrite (drop_S _ _ _ E). simpl. unfold isValid at 1.
    destruct (fd =? -1) eqn:F; simpl.
    + apply IH.
    + unfold bind, emit. destruct (closeFDs_loop n (S i) (<[i:=-1]> l)) as [l' t'] eqn:R.
      simpl. f_equal. change t' with (snd (l', t')). rewrite <- R, IH.
      rewrite drop_insert_lt by lia. reflexivity.
  - rewrite (drop_ge l i) by (apply lookup_ge_None; exact E).
    rewrite IH, drop_ge; [now rewrite take_nil|].
    apply lookup_ge_None in E. lia.
Qed.

Lemma closeFDs_loop_length n : forall i l, length (fst (closeFDs_loop n i l)) = length l.
Proof.
  induction n as [|n IH]; intros i l; simpl; [reflexivity|].
  destruct (l !! i) as [fd|]; [|apply IH].
  destruct (fd =? -1); [apply IH|].
  unfold bind, emit. destruct (closeFDs_loop n (S i) (<[i:=-1]> l)) as [l' t'] eqn:R.
  simpl. change l' with (fst (l', t')). rewrite <- R, IH. apply length_insert.
Qed.

(** Slots outside [i, i+n) keep their content. *)
Lemma closeFDs_loop_outside n : forall i l j,
  (j < i \/ i + n <= j)%nat -> fst (closeFDs_loop n i l) !! j = l !! j.
Proof.
  induction n as [|n IH]; intros i l j Hj; simpl; [reflexivity|].
  destruct (l !! i) as [fd|]; [|apply IH; lia].
  destruct (fd =? -1); [apply IH; lia|].
  unfold bind, emit. destruct (closeFDs_loop n (S i) (<[i:=-1]> l)) as [l' t'] eqn:R.
  simpl. change l' with (fst (l', t')). rewrite <- R, IH by lia.
  apply list_lookup_insert_ne. lia.
Qed.

(** Slots inside [i, i+n) hold the sentinel afterwards. *)
Lemma closeFDs_loop_inside n : forall i l j fd,
  (i <= j < i + n)%nat -> fst (closeFDs_loop n i l) !! j = Some fd -> fd = -1.
Proof.
  induction n as [|n IH]; intros i l j fd Hj; simpl; [lia|].
  destruct (Nat.eq_dec j i) as [->|Hne].
  - destruct (l !! i) as [fd'|] eqn:E.
    + destruct (fd' =? -1) eqn:F.
      * rewrite closeFDs_loop_outside by lia. rewrite E. intros [= <-]. lia.
      * unfold bind, emit. destruct (closeFDs_loop n (S i) (<[i:=-1]> l)) as [l' t'] eqn:R.
        simpl. change l' with (fst (l', t')). rewrite <- R, closeFDs_loop_outside by lia.
        rewrite list_lookup_insert_eq by (apply lookup_lt_Some in E; exact E).
        congruence.
    + rewrite closeFDs_loop_outside by lia. rewrite E. discriminate.
  - destruct (l !! i) as [fd'|]; [|apply IH; lia].
    destruct (fd' =? -1); [apply IH; lia|].
    unfold bind, emit. destruct (closeFDs_loop n (S i) (<[i:=-1]> l)) as [l' t'] eqn:R.
    simpl. change l' with (fst (l', t')). rewrite <- R. apply IH. lia.
Qed.

Lemma closeFDs_planes b : planes (m_attrs (fst (closeFDs b))) = 0.
Proof.
  unfold closeFDs, bind, ret.
  destruct (closeFDs_loop _ _ _). reflexivity.
Qed.

Lemma closeFDs_fds b :
  fds (m_attrs (fst (closeFDs b)))
  = fst (closeFDs_loop (Z.to_nat (planes (m_attrs b))) 0 (fds (m_attrs b))).
Proof.
  unfold closeFDs, bind, ret.
  destruct (closeFDs_loop _ _ _). reflexivity.
Qed.

Lemma closeFDs_trace b :
  snd (closeFDs b)
  = map EvClose (List.filter isValid
                   (take (Z.to_nat (planes (m_attrs b))) (fds (m_attrs b)))).
Proof.
  rewrite <- (drop_0 (fds (m_attrs b))) at 1. rewrite <- closeFDs_loop_trace.
  unfold closeFDs, bind, ret.
  destruct (closeFDs_loop _ _ _). simpl. apply app_nil_r.
Qed.

(** Once the plane count is zero the release path does nothing. *)
Lemma closeFDs_released b : planes (m_attrs b) = 0 -> closeFDs b = (b, []).
Proof.
  intros H. unfold closeFDs. rewrite H. simpl.
  destruct b as [a tex o s r ls sz]; destruct a; simpl in *. subst. reflexivity.
Qed.

End CloseFDs.

(** C6: [closeFDs] is idempotent.  For every buffer, running it on its
    own result changes nothing and performs nothing; after one run the
    plane count is zero and every slot below the former plane count
    holds the sentinel [-1], the slots above it are untouched, so that a
    descriptor whose unused slots hold the sentinel (as the four-slot
    array is initialised) ends with the sentinel in every slot; the
    descriptors closed are exactly the valid ones among the planes, in
    order, so a slot that already holds the sentinel is never closed. *)
Theorem closeFDs_idempotent (b : CDMABuffer) :
  let b1 := fst (closeFDs b) in
  closeFDs b1 = (b1, []) /\
  planes (m_attrs b1) = 0 /\
  (forall (i : nat) (fd : Z),
      Z.of_nat i < planes (m_attrs b) -> fds (m_attrs b1) !! i = Some fd -> fd = -1) /\
  (forall i : nat,
      planes (m_attrs b) <= Z.of_nat i -> fds (m_attrs b1) !! i = fds (m_attrs b) !! i) /\
  ((forall (i : nat) (fd : Z),
       planes (m_attrs b) <= Z.of_nat i -> fds (m_attrs b) !! i = Some fd -> fd = -1) ->
   Forall (fun fd => fd = -1) (fds (m_attrs b1))) /\
  closes (snd (closeFDs b))
  = List.filter isValid (take (Z.to_nat (planes (m_attrs b))) (fds (m_attrs b))) /\
  ~ In (-1) (closes (snd (closeFDs b))) /\
  closes (snd (closeFDs b1)) = [].
Proof.
  intros b1.
  assert (Hin : forall (i : nat) (fd : Z),
             Z.of_nat i < planes (m_attrs b) -> fds (m_attrs b1) !! i = Some fd -> fd = -1).
  { intros i fd Hi. unfold b1. rewrite closeFDs_fds.
    apply closeFDs_loop_inside. lia. }
  assert (Hout : forall i : nat,
             planes (m_attrs b) <= Z.of_nat i ->
             fds (m_attrs b1) !! i = fds (m_attrs b) !! i).
  { intros i Hi. unfold b1. rewrite closeFDs_fds.
    apply closeFDs_loop_outside. lia. }
  assert (Hcl : forall l : list Z, closes (map EvClose l) = l).
  { induction l as [|x l IH]; simpl; congruence. }
  assert (Hidem : closeFDs b1 = (b1, [])).
  { apply closeFDs_released, closeFDs_planes. }
  repeat split.
  - exact Hidem.
  - apply closeFDs_planes.
  - exact Hin.
  - exact Hout.
  - intros Hinv. apply Forall_forall. intros fd Hfd.
    apply list_elem_of_lookup in Hfd. destruct Hfd as [i Hi].
    destruct (Z_lt_le_dec (Z.of_nat i) (planes (m_attrs b))) as [Hlt|Hge].
    + exact (Hin i fd Hlt Hi).
    + rewrite (Hout i Hge) in Hi. exact (Hinv i fd Hge Hi).
  - rewrite closeFDs_trace. apply Hcl.
  - rewrite closeFDs_trace, Hcl. intros Hx. apply filter_In in Hx.
    destruct Hx as [_ Hx]. discriminate Hx.
  - rewrite Hidem. reflexivity.
Qed.

(** C4, as the code has it: when the destroy notification fires, the
    handler first runs [closeFDs], closing every valid descriptor among
    the planes, and unregisters the notification as its last action;
    afterwards the listener is no longer registered and the plane count
    is zero. *)
Theorem onResourceDestroy_unregisters_last (b : CDMABuffer) :
  snd (onResourceDestroy b)
  = map EvClose (List.filter isValid
                   (take (Z.to_nat (planes (m_attrs b))) (fds (m_attrs b))))
    ++ [EvListenerReset] /\
  fst (onResourceDestroy b) = with_listener (fst (closeFDs b)) false /\
  resourceDestroy (fst (onResourceDestroy b)) = false /\
  planes (m_attrs (fst (onResourceDestroy b))) = 0.
Proof.
  pose proof (closeFDs_trace b) as Ht. pose proof (closeFDs_planes b) as Hp.
  unfold onResourceDestroy, bind, emit, ret.
  destruct (closeFDs b) as [b1 t1]. simpl in *. subst t1.
  repeat split. exact Hp.
Qed.

(** C10: the capability query answers [BUFFER_CAPABILITY_DATAPTR] for
    every buffer, while [beginDataPtr] returns the null pointer with
    format 0 and size 0 for every buffer and every flag word and does
    nothing, and [endDataPtr] leaves the buffer as it is and does
    nothing. *)
Theorem caps_advertises_unimplemented_dataptr (b : CDMABuffer) (flags : Z) :
  caps b = BUFFER_CAPABILITY_DATAPTR /\
  beginDataPtr b flags = (None, 0, 0, []) /\
  endDataPtr b = (b, []).
Proof. repeat split. Qed.

(** ** Reasoning about [Eff] *)

Lemma fst_bind {A B} (m : Eff A) (f : A -> Eff B) :
  fst (bind m f) = fst (f (fst m)).
Proof. unfold bind. destruct m as [a t]. simpl. destruct (f a). reflexivity. Qed.

Lemma snd_bind {A B} (m : Eff A) (f : A -> Eff B) :
  snd (bind m f) = snd m ++ snd (f (fst m)).
Proof. unfold bind. destruct m as [a t]. simpl. destruct (f a). reflexivity. Qed.

Lemma liveMappings_app (t1 t2 : trace) : forall live,
  liveMappings live (t1 ++ t2) = liveMappings (liveMappings live t1) t2.
Proof.
  induction t1 as [|e t1 IH]; intros live; simpl; [reflexivity|].
  destruct e; try apply IH. destruct res; apply IH.
Qed.

Lemma openHandles_app (t1 t2 : trace) : forall open,
  openHandles open (t1 ++ t2) = openHandles (openHandles open t1) t2.
Proof.
  induction t1 as [|e t1 IH]; intros open; simpl; [reflexivity|].
  destruct e; try apply IH. destruct res; apply IH.
Qed.

Lemma remove_first_head (m : Z * Z) (l : list (Z * Z)) :
  remove_first same_mapping m (m :: l) = l.
Proof. simpl. unfold same_mapping. now rewrite !Z.eqb_refl. Qed.

#[local] Arguments bufferSize : simpl never.
#[local] Arguments remove_first : simpl never.

(** Unfold the effect combinators and split on every answer the code
    branches on. *)
Ltac eff_unfold := unfold bind, emit, log, ret in *; simpl in *.

Ltac eff_cases :=
  repeat (eff_unfold;
          match goal with
          | |- context [uploadLayout ?f] => destruct (uploadLayout f) eqn:?
          | |- context [match ?x with Some _ => _ | None => _ end] => destruct x eqn:?
          | |- context [if ?x then _ else _] => destruct x eqn:?
          end);
  eff_unfold; try congruence.

(** ** Cross-device materializer *)

Section Materializer.

Variable env : Env.

Lemma bufferSize_product_zero (a : SDMABUFAttrs) :
  slot (strides a) 0 * size_y a = 0 -> bufferSize a = 0.
Proof.
  intros H. unfold bufferSize, to_size_t.
  apply Z.mul_eq_0 in H. destruct H as [H | H]; rewrite H; [reflexivity|].
  rewrite Zmod_0_l, Z.mul_0_r. reflexivity.
Qed.

(** The mapping stage leaves exactly its result mapped. *)
Lemma mapPlane_liveMappings (a : SDMABUFAttrs) (live : list (Z * Z)) :
  liveMappings live (snd (mapPlane env a))
  = match fst (mapPlane env a) with
    | Some mapped => (mapped, bufferSize a) :: live
    | None => live
    end.
Proof. unfold mapPlane. eff_cases; reflexivity. Qed.

(** The mapping stage releases every handle it obtains. *)
Lemma mapPlane_openHandles (a : SDMABUFAttrs) (open : list (Z * Z)) :
  openHandles open (snd (mapPlane env a)) = open.
Proof.
  unfold mapPlane. eff_cases; try reflexivity; apply remove_first_head.
Qed.

Lemma uploadMapped_liveMappings (b : CDMABuffer) (mapped glFormat glType bpp : Z)
      (live : list (Z * Z)) :
  liveMappings ((mapped, bufferSize (m_attrs b)) :: live)
               (snd (uploadMapped env b mapped glFormat glType bpp)) = live.
Proof.
  unfold uploadMapped. eff_cases; apply remove_first_head.
Qed.

Lemma uploadMapped_openHandles (b : CDMABuffer) (mapped glFormat glType bpp : Z)
      (open : list (Z * Z)) :
  openHandles open (snd (uploadMapped env b mapped glFormat glType bpp)) = open.
Proof. unfold uploadMapped. eff_cases; reflexivity. Qed.

(** Whatever follows the mapping stage, the actions next to the
    dumb-buffer request are the ones of the mapping stage. *)
Lemma mapPlane_afterMapDumb (a : SDMABUFAttrs) (t : trace) (rest : trace) :
  afterMapDumb (actions (snd (mapPlane env a) ++ t)) = Some rest ->
  (forall rest', afterMapDumb (actions t) <> Some rest') ->
  exists handle,
    primeFDToHandle env = Some handle /\
    match mapDumb env with
    | None => rest = EvCloseBufferHandle (sourceDevice a) handle :: actions t /\
              fst (mapPlane env a) = None
    | Some offset =>
        rest = EvMmap (bufferSize a) (sourceDevice a) offset (mmap_device env)
               :: EvCloseBufferHandle (sourceDevice a) handle :: actions t
    end.
Proof.
  intros H Ht. unfold mapPlane in *. revert H.
  eff_cases; intros H; try (exfalso; exact (Ht _ H));
    injection H as <-; eexists; repeat split; reflexivity.
Qed.

Lemma uploadMapped_afterMapDumb (b : CDMABuffer) (mapped glFormat glType bpp : Z)
      (rest : trace) :
  afterMapDumb (actions (snd (uploadMapped env b mapped glFormat glType bpp))) <> Some rest.
Proof. unfold uploadMapped. eff_cases; discriminate. Qed.

Lemma uploadMapped_no_mmap (b : CDMABuffer) (mapped glFormat glType bpp : Z) :
  List.filter is_mmap (snd (uploadMapped env b mapped glFormat glType bpp)) = [].
Proof. unfold uploadMapped. eff_cases; reflexivity. Qed.

(** Every event of the materializer is one of its own, and none is a
    request of the zero-copy importer. *)
Lemma createCrossGPUTexture_events (b : CDMABuffer) :
  Forall (fun e => is_materializer_event e = true /\ is_zero_copy_event e = false)
         (snd (createCrossGPUTexture env b)).
Proof.
  unfold createCrossGPUTexture, mapPlane, uploadMapped.
  eff_cases; repeat constructor.
Qed.

(** A run of the materializer on Linux is visible in the trace. *)
Lemma createCrossGPUTexture_visible (b : CDMABuffer) :
  linux env = true -> snd (createCrossGPUTexture env b) <> [].
Proof.
  intros H. unfold createCrossGPUTexture, mapPlane. rewrite H.
  eff_cases; try discriminate;
    destruct (uploadMapped _ _ _ _ _ _); discriminate.
Qed.

(** The materializer reports success only with a texture of non-zero
    identity attached, and touches nothing but the texture. *)
Lemma createCrossGPUTexture_result (b : CDMABuffer) :
  let r := fst (createCrossGPUTexture env b) in
  (fst r = true ->
   exists tex, m_texture (snd r) = Some tex /\ m_texID tex <> 0 /\
               m_isSynchronous tex = true /\ m_target tex = GL_TEXTURE_2D /\
               m_type tex = textureType (format (m_attrs b))) /\
  (fst r = false -> snd r = b) /\
  m_attrs (snd r) = m_attrs b /\
  m_opaque (snd r) = m_opaque b /\
  m_success (snd r) = m_success b.
Proof.
  unfold createCrossGPUTexture, mapPlane, uploadMapped.
  eff_cases; repeat split; try discriminate; intros _;
    eexists; repeat split; simpl; try reflexivity;
    match goal with H : (_ =? 0) = false |- _ => apply Z.eqb_neq in H; exact H end.
Qed.

End Materializer.

(** C7: a descriptor whose plane count is not 1, or whose byte length
    (stride of plane 0 times height, as the code computes it in
    [size_t]) is zero, makes [createCrossGPUTexture] return false with
    the buffer unchanged and without any action on the outside world, in
    particular without any memory mapping; only an error is logged. *)
Theorem createCrossGPUTexture_gate (env : Env) (b : CDMABuffer) :
  planes (m_attrs b) <> 1 \/
  slot (strides (m_attrs b)) 0 * size_y (m_attrs b) = 0 \/
  bufferSize (m_attrs b) = 0 ->
  fst (createCrossGPUTexture env b) = (false, b) /\
  List.filter is_mmap (snd (createCrossGPUTexture env b)) = [] /\
  actions (snd (createCrossGPUTexture env b)) = [].
Proof.
  intros H.
  assert (H' : (planes (m_attrs b) =? 1) = false \/ (bufferSize (m_attrs b) =? 0) = true).
  { destruct H as [H | [H | H]].
    - left. now apply Z.eqb_neq.
    - right. apply Z.eqb_eq. now apply bufferSize_product_zero.
    - right. now apply Z.eqb_eq. }
  unfold createCrossGPUTexture.
  destruct (linux env); simpl; [|repeat split].
  destruct H' as [-> | H']; simpl; [repeat split|].
  destruct (planes (m_attrs b) =? 1); simpl; [|repeat split].
  rewrite H'. repeat split.
Qed.

(** C8, as the code has it: on every exit path of
    [createCrossGPUTexture] every mapping it created has been unmapped
    with its own address and length when it returns, and every
    device-local handle it obtained has been released; after the
    dumb-buffer mapping request the handle is released as the very next
    action when the request failed, and right after the mapping attempt
    through the device when the request succeeded, whatever the outcome
    of that attempt. *)
Theorem createCrossGPUTexture_releases (env : Env) (b : CDMABuffer) :
  let t := snd (createCrossGPUTexture env b) in
  liveMappings [] t = [] /\
  openHandles [] t = [] /\
  forall rest, afterMapDumb (actions t) = Some rest ->
    exists handle,
      primeFDToHandle env = Some handle /\
      match mapDumb env with
      | None => rest = [EvCloseBufferHandle (sourceDevice (m_attrs b)) handle]
      | Some offset =>
          exists rest',
            rest = EvMmap (bufferSize (m_attrs b)) (sourceDevice (m_attrs b)) offset
                          (mmap_device env)
                   :: EvCloseBufferHandle (sourceDevice (m_attrs b)) handle :: rest'
      end.
Proof.
  unfold createCrossGPUTexture.
  destruct (linux env); simpl; [|repeat split; discriminate].
  destruct (planes (m_attrs b) =? 1); simpl; [|repeat split; discriminate].
  destruct (bufferSize (m_attrs b) =? 0); simpl; [repeat split; discriminate|].
  rewrite snd_bind.
  split; [|split].
  - rewrite liveMappings_app, mapPlane_liveMappings.
    destruct (fst (mapPlane env (m_attrs b))) as [mapped|]; [|reflexivity].
    destruct (uploadLayout (format (m_attrs b)));
      [apply uploadMapped_liveMappings | apply remove_first_head | apply remove_first_head].
  - rewrite openHandles_app, mapPlane_openHandles.
    destruct (fst (mapPlane env (m_attrs b))) as [mapped|]; [|reflexivity].
    destruct (uploadLayout (format (m_attrs b)));
      [apply uploadMapped_openHandles | reflexivity | reflexivity].
  - intros rest Hrest.
    apply mapPlane_afterMapDumb in Hrest.
    + destruct Hrest as [handle [Hh Hrest]]. exists handle. split; [exact Hh|].
      destruct (mapDumb env) as [offset|].
      * eexists. exact Hrest.
      * destruct Hrest as [-> ->]. reflexivity.
    + intros rest'.
      destruct (fst (mapPlane env (m_attrs b))) as [mapped|]; [|discriminate].
      destruct (uploadLayout (format (m_attrs b)));
        [apply uploadMapped_afterMapDumb | discriminate | discriminate].
Qed.

(** C8 as stated fails: with the direct mapping refused and the
    dumb-buffer request granted, the action next to the request is the
    mapping through the device, and the handle is released only after
    it. *)
Lemma createCrossGPUTexture_handle_held_over_mmap :
  releasedAtOnce
    (snd (createCrossGPUTexture (Examples.envDevicePath false)
                                (newBuffer (Examples.envDevicePath false) Examples.attrs1)))
  = false /\
  firstn 5 (actions
    (snd (createCrossGPUTexture (Examples.envDevicePath false)
                                (newBuffer (Examples.envDevicePath false) Examples.attrs1))))
  = [EvMmap 16384 5 0 None;
     EvPrimeFDToHandle 9 5 (Some 42);
     EvMapDumb 9 42 (Some 4096);
     EvMmap 16384 9 4096 (Some 139000);
     EvCloseBufferHandle 9 42].
Proof. split; vm_compute; reflexivity. Qed.

(** C4 as stated fails: on a buffer with one open plane descriptor the
    first action of the handler closes that descriptor; the listener is
    reset after it. *)
Lemma onResourceDestroy_closes_first :
  snd (onResourceDestroy (Examples.imported Examples.attrs1))
  = [EvClose 5; EvListenerReset] /\
  hd_error (snd (onResourceDestroy (Examples.imported Examples.attrs1)))
  <> Some EvListenerReset.
Proof. split; [reflexivity | discriminate]. Qed.

(** ** Zero-copy importer and constructor *)

Section ZeroCopy.

Variable env : Env.

Lemma adoptImage_events (b : CDMABuffer) (img : Z) :
  Forall (fun e => is_materializer_event e = false /\ is_zero_copy_event e = false)
         (snd (adoptImage env b img)) /\
  actions (snd (adoptImage env b img)) = [].
Proof. unfold adoptImage. eff_cases; repeat constructor. Qed.

(** The importer performs no event of the materializer, and its first
    event is the image request for the descriptor as it stands. *)
Lemma importEGLImage_events (b : CDMABuffer) :
  Forall (fun e => is_materializer_event e = false) (snd (importEGLImage env b)) /\
  exists post, snd (importEGLImage env b) = EvCreateEGLImage (m_attrs b) :: post.
Proof.
  unfold importEGLImage, adoptImage. split.
  - eff_cases; repeat constructor.
  - eff_cases; eexists; reflexivity.
Qed.

Lemma importEGLImage_no_announcement (b : CDMABuffer) :
  ~ In cpuFallbackLog (snd (importEGLImage env b)).
Proof.
  unfold importEGLImage, adoptImage.
  eff_cases; intros H;
    repeat (destruct H as [H|H]; [discriminate H|]); exact H.
Qed.

(** The image requests of one import, by the two answers. *)
Lemma importEGLImage_requests (b : CDMABuffer) :
  eglRequests (snd (importEGLImage env b))
  = match createEGLImage env 0%nat (m_attrs b) with
    | Some _ => [m_attrs b]
    | None => [m_attrs b; set_modifier (m_attrs b) DRM_FORMAT_MOD_INVALID]
    end.
Proof. unfold importEGLImage, adoptImage. eff_cases; reflexivity. Qed.

(** What the importer leaves in the buffer. *)
Lemma importEGLImage_flags (b : CDMABuffer) :
  let b' := fst (importEGLImage env b) in
  format (m_attrs b') = format (m_attrs b) /\
  match m_texture b' with
  | Some tex =>
      (m_texture b = None ->
       m_opaque b' = isFormatOpaque env (format (m_attrs b)) /\
       m_success b' = negb (m_texID tex =? 0))
  | None => m_opaque b' = m_opaque b /\ m_success b' = m_success b
  end.
Proof.
  unfold importEGLImage, adoptImage.
  eff_cases;
    repeat match goal with H : Some _ = Some _ |- _ => injection H as <- end;
    repeat split; try reflexivity; try congruence.
Qed.

End ZeroCopy.

(** C2: the constructor calls the materializer, and calls it before any
    image request, exactly when the descriptor is cross-GPU, the
    secondary device is available and the fallback is enabled and not
    disabled.  In that case the trace is the announcement, the whole run
    of the materializer (which holds no image request), and a rest that
    holds no materializer event; when the materializer failed the rest
    goes on to the image request for the descriptor, and when it
    succeeded no image is requested.  In every other case the trace
    holds no materializer event and no announcement, and the first
    action after making the context current is the image request. *)
Theorem constructor_strategy_order (env : Env) (attrs_ : SDMABUFAttrs) :
  let t := snd (constructor env attrs_) in
  let mat := createCrossGPUTexture env (newBuffer env attrs_) in
  if crossGPU attrs_ && secondaryAvailable env
     && (ENABLE_CPU_FALLBACK env && negb (DISABLE_CPU_FALLBACK env))
  then
    exists post,
      t = EvMakeEGLCurrent :: cpuFallbackLog :: snd mat ++ post /\
      Forall (fun e => is_zero_copy_event e = false) (snd mat) /\
      Forall (fun e => is_materializer_event e = false) post /\
      if fst (fst mat)
      then eglRequests post = []
      else exists post',
          post = cpuFallbackFailedLog :: EvCreateEGLImage attrs_ :: post'
  else
    Forall (fun e => is_materializer_event e = false) t /\
    ~ In cpuFallbackLog t /\
    exists post, actions t = EvMakeEGLCurrent :: EvCreateEGLImage attrs_ :: post.
Proof.
  intros t mat. subst t.
  unfold constructor, useCPUFallback, allowCPUFallback.
  change (m_attrs (newBuffer env attrs_)) with attrs_.
  destruct (crossGPU attrs_ && secondaryAvailable env
            && (ENABLE_CPU_FALLBACK env && negb (DISABLE_CPU_FALLBACK env))) eqn:Hc.
  - pose proof (createCrossGPUTexture_result env (newBuffer env attrs_)) as Hres.
    pose proof (createCrossGPUTexture_events env (newBuffer env attrs_)) as Hev.
    fold mat in Hres, Hev. simpl in Hres.
    rewrite !snd_bind. simpl. fold mat.
    destruct mat as [[ok b1] tm]. simpl in *.
    destruct Hres as (Hok & Hfail & Hattrs & _ & _).
    eexists. split; [reflexivity|].
    split; [eapply Forall_impl; [exact Hev|]; simpl; tauto|].
    destruct ok; simpl.
    + destruct (Hok eq_refl) as (tex & -> & Hid & _).
      apply Z.eqb_neq in Hid. rewrite Hid. simpl.
      split; [repeat constructor | reflexivity].
    + rewrite (Hfail eq_refl).
      destruct (importEGLImage_events env (newBuffer env attrs_)) as [Hno [post' Hpost]].
      destruct (importEGLImage env (newBuffer env attrs_)) as [bi ti].
      simpl in *. split.
      * constructor; [reflexivity | exact Hno].
      * exists post'. unfold cpuFallbackFailedLog. f_equal. exact Hpost.
  - destruct (importEGLImage_events env (newBuffer env attrs_)) as [Hno [post' Hpost]].
    assert (Hnot : ~ In cpuFallbackLog (snd (importEGLImage env (newBuffer env attrs_)))).
    { apply importEGLImage_no_announcement. }
    rewrite !snd_bind.
    match goal with
    | |- context [if ?c then log _ _ else ret tt] => destruct c
    end; simpl; (split; [|split]).
    + repeat (constructor; [reflexivity|]). exact Hno.
    + intros [H|[H|H]]; [discriminate H | discriminate H | exact (Hnot H)].
    + unfold actions. simpl. rewrite Hpost. simpl. eexists. reflexivity.
    + repeat (constructor; [reflexivity|]). exact Hno.
    + intros [H|H]; [discriminate H | exact (Hnot H)].
    + unfold actions. simpl. rewrite Hpost. simpl. eexists. reflexivity.
Qed.

Lemma eglRequests_app (t1 t2 : trace) :
  eglRequests (t1 ++ t2) = eglRequests t1 ++ eglRequests t2.
Proof.
  induction t1 as [|e t1 IH]; simpl; [reflexivity|].
  destruct e; simpl; congruence.
Qed.

Lemma eglRequests_none (t : trace) :
  Forall (fun e => is_zero_copy_event e = false) t -> eglRequests t = [].
Proof.
  induction 1 as [|e t He _ IH]; simpl; [reflexivity|].
  destruct e; try exact IH. discriminate He.
Qed.

(** C3: when the first image request of a zero-copy import fails and the
    modifier is not the implicit sentinel, the import makes exactly two
    image requests: the descriptor as given, then the same descriptor
    with the modifier replaced by [DRM_FORMAT_MOD_INVALID], which the
    buffer keeps.  If the second request fails too, nothing more is
    done: the two requests are the only actions, no texture is attached
    and the success flag is untouched. *)
Theorem importEGLImage_retries_once (env : Env) (b : CDMABuffer) :
  createEGLImage env 0%nat (m_attrs b) = None ->
  modifier (m_attrs b) <> DRM_FORMAT_MOD_INVALID ->
  let a' := set_modifier (m_attrs b) DRM_FORMAT_MOD_INVALID in
  let r := importEGLImage env b in
  eglRequests (snd r) = [m_attrs b; a'] /\
  modifier a' = DRM_FORMAT_MOD_INVALID /\
  a' <> m_attrs b /\
  m_attrs (fst r) = a' /\
  (createEGLImage env 1%nat a' = None ->
   actions (snd r) = [EvCreateEGLImage (m_attrs b); EvCreateEGLImage a'] /\
   m_texture (fst r) = m_texture b /\
   m_success (fst r) = m_success b).
Proof.
  intros H0 Hmod a' r. subst r.
  split; [|split; [|split; [|split]]].
  - rewrite importEGLImage_requests, H0. reflexivity.
  - reflexivity.
  - intros E. apply Hmod. rewrite <- E. reflexivity.
  - unfold importEGLImage, adoptImage. rewrite H0. fold a'.
    eff_cases; reflexivity.
  - intros H1. unfold importEGLImage. rewrite H0. fold a'.
    change (m_attrs (with_attrs b a')) with a'. rewrite H1.
    eff_cases; repeat split.
Qed.

(** Every construction makes at most two image requests. *)
Lemma constructor_requests_at_most_two (env : Env) (attrs_ : SDMABUFAttrs) :
  (length (eglRequests (snd (constructor env attrs_))) <= 2)%nat.
Proof.
  assert (Himp : forall b, (length (eglRequests (snd (importEGLImage env b))) <= 2)%nat).
  { intros b. rewrite importEGLImage_requests.
    destruct (createEGLImage env 0%nat (m_attrs b)); simpl; lia. }
  pose proof (createCrossGPUTexture_events env (newBuffer env attrs_)) as Hev.
  assert (Hmat : eglRequests (snd (createCrossGPUTexture env (newBuffer env attrs_))) = []).
  { apply eglRequests_none. eapply Forall_impl; [exact Hev|]. simpl. tauto. }
  unfold constructor.
  destruct (useCPUFallback env (m_attrs (newBuffer env attrs_))).
  - rewrite !snd_bind. simpl.
    rewrite eglRequests_app, Hmat. simpl.
    destruct (createCrossGPUTexture env (newBuffer env attrs_)) as [[ok b1] tm]. simpl.
    destruct ok; simpl.
    + match goal with |- context [if ?c then _ else _] => destruct c end.
      * simpl. lia.
      * apply Himp.
    + specialize (Himp b1). destruct (importEGLImage env b1). exact Himp.
  - rewrite !snd_bind. simpl. rewrite eglRequests_app.
    match goal with |- context [if ?c then log _ _ else ret tt] => destruct c end;
      simpl; apply Himp.
Qed.

(** C5, as the code has it: the success flag is true exactly when a
    texture with a non-zero identity is attached; whenever a strategy
    attached a texture the opaque flag is the alpha-less classification
    of the descriptor's format, whichever strategy it was; when both
    strategies failed no texture is attached, the success flag is false
    and the opaque flag still holds its initial value. *)
Theorem constructor_flags (env : Env) (attrs_ : SDMABUFAttrs) :
  let b := fst (constructor env attrs_) in
  (m_success b = true <-> exists tex, m_texture b = Some tex /\ m_texID tex <> 0) /\
  match m_texture b with
  | Some _ => m_opaque b = isFormatOpaque env (format attrs_)
  | None => m_opaque b = default_opaque env /\ m_success b = false
  end.
Proof.
  assert (Himp : let b := fst (importEGLImage env (newBuffer env attrs_)) in
            (m_success b = true <-> exists tex, m_texture b = Some tex /\ m_texID tex <> 0) /\
            match m_texture b with
            | Some _ => m_opaque b = isFormatOpaque env (format attrs_)
            | None => m_opaque b = default_opaque env /\ m_success b = false
            end).
  { pose proof (importEGLImage_flags env (newBuffer env attrs_)) as H. simpl in *.
    destruct H as [_ H].
    destruct (m_texture (fst (importEGLImage env (newBuffer env attrs_)))) as [tex|].
    - destruct (H eq_refl) as [Ho Hs]. rewrite Hs. split; [|exact Ho]. split.
      + intros Hid. exists tex. split; [reflexivity|].
        apply Z.eqb_neq. now destruct (m_texID tex =? 0).
      + intros (tex' & [= <-] & Hid). apply Z.eqb_neq in Hid. now rewrite Hid.
    - destruct H as [Ho Hs]. rewrite Hs. split; [|split; [exact Ho|reflexivity]].
      split; [discriminate|]. intros (tex' & Htex & _). discriminate Htex. }
  pose proof (createCrossGPUTexture_result env (newBuffer env attrs_)) as Hres.
  simpl in Hres. destruct Hres as (Hok & Hfail & Hattrs & _ & _).
  unfold constructor. rewrite fst_bind.
  change (m_attrs (newBuffer env attrs_)) with attrs_.
  destruct (useCPUFallback env attrs_).
  - rewrite !fst_bind.
    destruct (createCrossGPUTexture env (newBuffer env attrs_)) as [[ok b1] tm].
    cbn [fst snd] in *. destruct ok; cbn [negb].
    + destruct (Hok eq_refl) as (tex & Htex & Hid & _).
      apply Z.eqb_neq in Hid.
      change (m_texture (with_opaque b1 (isFormatOpaque env (format (m_attrs b1)))))
        with (m_texture b1).
      rewrite Htex, Hid. cbn [negb].
      change (m_success (with_success ?x true)) with true. cbv iota.
      rewrite fst_bind. cbn [fst ret].
      unfold with_success, with_opaque.
      cbn [m_success m_texture m_opaque m_attrs]. rewrite Htex, Hattrs.
      split; [|reflexivity]. split; [|reflexivity].
      intros _. exists tex. split; [reflexivity|]. now apply Z.eqb_neq.
    + rewrite (Hfail eq_refl), fst_bind. exact Himp.
  - rewrite !fst_bind. exact Himp.
Qed.

(** C5 as stated fails when both strategies fail: the opaque flag keeps
    its initial value whatever the format is.  With the flag initially
    false an alpha-less format is reported as not opaque, and with the
    flag initially true a format with alpha is reported as opaque. *)
Lemma constructor_failed_import_keeps_default_opaque :
  (m_opaque (fst (constructor (Examples.envImportFails false) Examples.attrs1)) = false /\
   isFormatOpaque (Examples.envImportFails false) (format Examples.attrs1) = true) /\
  (m_opaque (fst (constructor (Examples.envImportFails true) Examples.attrs1_alpha)) = true /\
   isFormatOpaque (Examples.envImportFails true) (format Examples.attrs1_alpha) = false).
Proof. repeat split. Qed.

(** ** Fence exporter *)

Section Fences.

Variable env : Env.

(** [NoFence] is exactly the condition under which the collecting loop
    ends with no fence. *)
Lemma collectSyncFds_NoFence (l : list Z) : forall k,
  NoFence env l k <-> fst (fst (collectSyncFds env l k)) = [].
Proof.
  induction l as [|fd rest IH]; intros k; simpl.
  - split; [reflexivity | constructor].
  - destruct (fd =? -1) eqn:Hfd.
    + apply Z.eqb_eq in Hfd. subst fd. rewrite <- IH. split.
      * intros H. inversion H; subst; try congruence.
      * apply NoFence_invalid.
    + apply Z.eqb_neq in Hfd. rewrite fst_bind.
      fold (probesReadability env).
      destruct (probesReadability env) eqn:Hp; cbn [fst bind emit ret].
      * destruct (isReadable env fd) eqn:Hr.
        -- rewrite <- IH. split.
           ++ intros H. inversion H; subst; try congruence.
              rewrite Hp, Hr in *. discriminate.
           ++ now apply NoFence_readable.
        -- rewrite !fst_bind.
           destruct (doIoctl fd DMA_BUF_IOCTL_EXPORT_SYNC_FILE k) as [[[res out] k1] t1] eqn:Hio.
           cbn [fst snd]. rewrite fst_bind. specialize (IH k1).
           destruct (collectSyncFds env rest k1) as [[more k2] t2]. cbn [fst snd] in *.
           destruct (res =? 0) eqn:Hres; cbn [fst ret].
           ++ split; [|discriminate]. intros H. inversion H; subst; try congruence.
              rewrite Hio in *. cbn [fst snd] in *. apply Z.eqb_eq in Hres. congruence.
           ++ rewrite <- IH. split.
              ** intros H. inversion H; subst; try congruence.
                 rewrite Hio in *. assumption.
              ** intros H. apply NoFence_failed; rewrite ?Hio, ?Hp, ?Hr; cbn [fst snd];
                   try assumption; try reflexivity.
                 now apply Z.eqb_neq.
      * rewrite !fst_bind.
        destruct (doIoctl fd DMA_BUF_IOCTL_EXPORT_SYNC_FILE k) as [[[res out] k1] t1] eqn:Hio.
        cbn [fst snd]. rewrite fst_bind. specialize (IH k1).
        destruct (collectSyncFds env rest k1) as [[more k2] t2]. cbn [fst snd] in *.
        destruct (res =? 0) eqn:Hres; cbn [fst ret].
        -- split; [|discriminate]. intros H. inversion H; subst; try congruence.
           rewrite Hio in *. cbn [fst snd] in *. apply Z.eqb_eq in Hres. congruence.
        -- rewrite <- IH. split.
           ++ intros H. inversion H; subst; try congruence.
              rewrite Hio in *. assumption.
           ++ intros H. apply NoFence_failed; rewrite ?Hio, ?Hp; cbn [fst snd];
                try assumption; try reflexivity.
              now apply Z.eqb_neq.
Qed.

(** With no valid descriptor the loop does nothing at all. *)
Lemma collectSyncFds_all_invalid (l : list Z) (k : script) :
  Forall (fun fd => fd = -1) l -> collectSyncFds env l k = (([], k), []).
Proof.
  induction 1 as [|fd rest -> _ IH]; simpl; [reflexivity | exact IH].
Qed.

(** A failed merge empties the accumulator, and the next fence of the
    list then seeds it again: the fences merged so far are dropped and
    the result is built from the fences after the failure. *)
Lemma mergeSyncFds_failure_reseeds (syncFd fd next : Z) (rest : list Z) (k : script) :
  isValid syncFd = true ->
  fst (fst (fst (doIoctl syncFd (SYNC_IOC_MERGE fd) k))) <> 0 ->
  fst (mergeSyncFds syncFd (fd :: next :: rest) k)
  = fst (mergeSyncFds next rest (snd (fst (doIoctl syncFd (SYNC_IOC_MERGE fd) k)))).
Proof.
  intros Hv Hres. cbn [mergeSyncFds]. rewrite Hv. cbn [negb]. rewrite fst_bind.
  destruct (doIoctl syncFd (SYNC_IOC_MERGE fd) k) as [[[res out] k1] t1].
  cbn [fst snd] in *. apply Z.eqb_neq in Hres. rewrite Hres. reflexivity.
Qed.

End Fences.

(** C9: on a buffer whose import did not succeed [exportSyncFile]
    returns the empty descriptor at once, performs nothing and leaves
    the kernel untouched; and on any buffer for which no plane yields a
    fence (the slot holds no descriptor, or the plane is skipped as
    already readable, or its export request fails) the result is the
    empty descriptor as well. *)
Theorem exportSyncFile_empty (env : Env) (b : CDMABuffer) (k : script) :
  good b = false \/ NoFence env (fds (m_attrs b)) k ->
  fst (fst (exportSyncFile env b k)) = -1 /\
  (good b = false -> exportSyncFile env b k = ((-1, k), [])) /\
  (Forall (fun fd => fd = -1) (fds (m_attrs b)) -> exportSyncFile env b k = ((-1, k), [])).
Proof.
  intros H. unfold exportSyncFile. split; [|split].
  - destruct (good b); cbn [negb]; [|reflexivity].
    destruct H as [H|H]; [discriminate H|].
    destruct (linux env); cbn [negb]; [|reflexivity].
    apply collectSyncFds_NoFence in H. rewrite fst_bind.
    destruct (collectSyncFds env (fds (m_attrs b)) k) as [[syncFds k1] t1].
    cbn [fst snd] in *. subst syncFds. reflexivity.
  - intros ->. reflexivity.
  - intros Hall. destruct (good b); cbn [negb]; [|reflexivity].
    destruct (linux env); cbn [negb]; [|reflexivity].
    rewrite (collectSyncFds_all_invalid env _ k Hall). reflexivity.
Qed.

(** C1 at the failing input: three planes export the fences 10, 11 and
    12 and the merge of 10 with 11 fails (after one interrupted try).
    The claim asks for the empty descriptor; the code returns fence 12,
    the fence of the last plane alone, and never merges it. *)
Theorem exportSyncFile_failed_merge_returns_later_fence :
  exportSyncFile Examples.envNoProbe (Examples.imported Examples.attrs3)
                 Examples.firstMergeFails
  = ((12, []),
     [EvIoctl 3 DMA_BUF_IOCTL_EXPORT_SYNC_FILE;
      EvIoctl 4 DMA_BUF_IOCTL_EXPORT_SYNC_FILE;
      EvIoctl 5 DMA_BUF_IOCTL_EXPORT_SYNC_FILE;
      EvIoctl 10 (SYNC_IOC_MERGE 11);
      EvIoctl 10 (SYNC_IOC_MERGE 11)]).
Proof. reflexivity. Qed.

(** With four planes the same failure yields a merge of the last two
    fences only. *)
Lemma exportSyncFile_failed_merge_partial :
  exportSyncFile Examples.envNoProbe (Examples.imported Examples.attrs4)
                 Examples.firstMergeFails4
  = ((20, []),
     [EvIoctl 3 DMA_BUF_IOCTL_EXPORT_SYNC_FILE;
      EvIoctl 4 DMA_BUF_IOCTL_EXPORT_SYNC_FILE;
      EvIoctl 5 DMA_BUF_IOCTL_EXPORT_SYNC_FILE;
      EvIoctl 6 DMA_BUF_IOCTL_EXPORT_SYNC_FILE;
      EvIoctl 10 (SYNC_IOC_MERGE 11);
      EvIoctl 12 (SYNC_IOC_MERGE 13)]).
Proof. reflexivity. Qed.

(** When every merge succeeds the result is the last merged fence, and
    when the last merge fails it is the empty descriptor. *)
Lemma exportSyncFile_merge_examples :
  fst (fst (exportSyncFile Examples.envNoProbe (Examples.imported Examples.attrs3)
                           Examples.allMergesWork)) = 21 /\
  fst (fst (exportSyncFile Examples.envNoProbe (Examples.imported Examples.attrs3)
                           Examples.lastMergeFails)) = -1.
Proof. split; reflexivity. Qed.

(** ** The theorems at concrete inputs *)

Lemma closeFDs_two_planes :
  closeFDs (Examples.imported Examples.attrs2)
  = (with_attrs (Examples.imported Examples.attrs2)
       (set_planes (set_fds Examples.attrs2 [-1; -1; -1; -1]) 0),
     [EvClose 5; EvClose 6]).
Proof. reflexivity. Qed.

Lemma createCrossGPUTexture_gate_witness :
  planes Examples.attrs2 <> 1 /\
  fst (createCrossGPUTexture (Examples.envDevicePath false)
                             (newBuffer (Examples.envDevicePath false) Examples.attrs2))
  = (false, newBuffer (Examples.envDevicePath false) Examples.attrs2) /\
  actions (snd (createCrossGPUTexture (Examples.envDevicePath false)
                             (newBuffer (Examples.envDevicePath false) Examples.attrs2)))
  = [].
Proof.
  assert (H : planes Examples.attrs2 <> 1) by (simpl; lia).
  split; [exact H|].
  destruct (createCrossGPUTexture_gate (Examples.envDevicePath false)
              (newBuffer (Examples.envDevicePath false) Examples.attrs2)
              (or_introl H)) as (H1 & _ & H3).
  split; [exact H1 | exact H3].
Defined.

Lemma importEGLImage_retries_once_witness :
  eglRequests (snd (importEGLImage (Examples.envImportFails false)
                      (newBuffer (Examples.envImportFails false) Examples.attrs1)))
  = [Examples.attrs1; set_modifier Examples.attrs1 DRM_FORMAT_MOD_INVALID] /\
  m_success (fst (importEGLImage (Examples.envImportFails false)
                    (newBuffer (Examples.envImportFails false) Examples.attrs1)))
  = false.
Proof.
  assert (H0 : createEGLImage (Examples.envImportFails false) 0%nat
                 (m_attrs (newBuffer (Examples.envImportFails false) Examples.attrs1))
               = None) by reflexivity.
  assert (Hm : modifier (m_attrs (newBuffer (Examples.envImportFails false) Examples.attrs1))
               <> DRM_FORMAT_MOD_INVALID) by (vm_compute; lia).
  destruct (importEGLImage_retries_once (Examples.envImportFails false)
              (newBuffer (Examples.envImportFails false) Examples.attrs1) H0 Hm)
    as (H1 & _ & _ & _ & H5).
  split; [exact H1|].
  destruct (H5 eq_refl) as (_ & _ & H8). exact H8.
Defined.

Lemma exportSyncFile_empty_witness :
  good (Examples.failed Examples.attrs2) = false /\
  exportSyncFile Examples.envNoProbe (Examples.failed Examples.attrs2)
                 Examples.allMergesWork
  = ((-1, Examples.allMergesWork), []).
Proof.
  assert (H : good (Examples.failed Examples.attrs2) = false) by reflexivity.
  split; [exact H|].
  destruct (exportSyncFile_empty Examples.envNoProbe (Examples.failed Examples.attrs2)
              Examples.allMergesWork (or_introl H)) as (_ & H2 & _).
  exact (H2 H).
Defined.

(** No plane yields a fence when every plane is found readable: the
    result is empty and the kernel is only probed. *)
Lemma exportSyncFile_all_readable :
  NoFence Examples.envAllReadable (fds Examples.attrs2) Examples.allMergesWork /\
  exportSyncFile Examples.envAllReadable (Examples.imported Examples.attrs2)
                 Examples.allMergesWork
  = ((-1, Examples.allMergesWork), [EvIsReadable 5; EvIsReadable 6]).
Proof.
  split; [|reflexivity].
  apply collectSyncFds_NoFence. reflexivity.
Qed.

(** Scenario B of the specification: the first image request fails with
    a vendor modifier and the retry with the implicit modifier works. *)
Lemma constructor_retry_succeeds :
  good (fst (constructor Examples.envRetryWorks Examples.attrs1)) = true /\
  m_opaque (fst (constructor Examples.envRetryWorks Examples.attrs1)) = true /\
  eglRequests (snd (constructor Examples.envRetryWorks Examples.attrs1))
  = [Examples.attrs1; set_modifier Examples.attrs1 DRM_FORMAT_MOD_INVALID].
Proof. repeat split. Qed.

(** The device path run to the end: the materializer succeeds and the
    constructor requests no image. *)
Lemma constructor_device_path :
  good (fst (constructor (Examples.envDevicePath false) Examples.attrs1)) = true /\
  eglRequests (snd (constructor (Examples.envDevicePath false) Examples.attrs1)) = [] /\
  option_map m_isSynchronous
    (m_texture (fst (constructor (Examples.envDevicePath false) Examples.attrs1)))
  = Some true.
Proof. repeat split. Qed.

(** * Further properties of the code *)

(** ** [doIoctl] *)

(** X1: [doIoctl] repeats the request while the kernel answers [-1] with
    [EINTR] or [EAGAIN] and stops at the first other answer, success or
    error alike: after any run of such answers it returns the return
    value and the descriptor of the answer that follows, leaves the
    later answers unconsumed, and has issued the request once per answer
    it consumed. *)
Theorem doIoctl_retries_only_transient
        (fd : Z) (request : ioctl_request) (pre : script) (r : reply) (rest : script) :
  Forall (fun x => is_transient x = true) pre ->
  is_transient r = false ->
  doIoctl fd request (pre ++ r :: rest)
  = ((r_ret r, r_out r, rest), replicate (S (length pre)) (EvIoctl fd request)).
Proof.
  intros Hpre Hr. induction Hpre as [|x pre Hx _ IH]; cbn [app doIoctl length].
  - unfold is_transient in Hr. rewrite Hr. reflexivity.
  - unfold is_transient in Hx. rewrite Hx. unfold bind, emit. rewrite IH. reflexivity.
Qed.

Lemma doIoctl_retries_only_transient_witness :
  doIoctl 10 (SYNC_IOC_MERGE 11)
          ([Examples.interrupted; mkReply (-1) EAGAIN (-1)] ++ Examples.refused :: [Examples.ok 20])
  = ((-1, -1, [Examples.ok 20]), replicate 3 (EvIoctl 10 (SYNC_IOC_MERGE 11))).
Proof.
  apply (doIoctl_retries_only_transient 10 (SYNC_IOC_MERGE 11)
           [Examples.interrupted; mkReply (-1) EAGAIN (-1)] Examples.refused [Examples.ok 20]).
  - repeat constructor.
  - reflexivity.
Defined.

(** ** Release path *)

Lemma closes_map_EvClose (l : list Z) : closes (map EvClose l) = l.
Proof. induction l as [|x l IH]; simpl; congruence. Qed.

Lemma closeFDs_keeps (b : CDMABuffer) :
  m_resource (fst (closeFDs b)) = m_resource b /\
  resourceDestroy (fst (closeFDs b)) = resourceDestroy b /\
  m_texture (fst (closeFDs b)) = m_texture b /\
  m_success (fst (closeFDs b)) = m_success b /\
  m_opaque (fst (closeFDs b)) = m_opaque b.
Proof.
  unfold closeFDs, bind, ret. destruct (closeFDs_loop _ _ _). repeat split.
Qed.

(** After [closeFDs] every slot holds the sentinel, provided the slots
    that belong to no plane did. *)
Lemma closeFDs_all_invalid (b : CDMABuffer) :
  unusedSlotsEmpty (m_attrs b) ->
  Forall (fun fd => fd = -1) (fds (m_attrs (fst (closeFDs b)))).
Proof.
  intros Hinv. apply Forall_forall. intros fd Hfd.
  apply list_elem_of_lookup in Hfd. destruct Hfd as [i Hi].
  rewrite closeFDs_fds in Hi.
  destruct (Z_lt_le_dec (Z.of_nat i) (planes (m_attrs b))) as [Hlt|Hge].
  - eapply closeFDs_loop_inside; [|exact Hi]. lia.
  - rewrite closeFDs_loop_outside in Hi by lia. exact (Hinv i fd Hge Hi).
Qed.

(** X2: the destructor signals the release to the protocol resource
    first, and only when one is attached, then closes exactly the valid
    descriptors among the planes, in order; it leaves the plane count at
    zero and touches neither the texture nor the flags. *)
Theorem destructor_releases_then_closes (b : CDMABuffer) :
  snd (destructor b)
  = (if m_resource b then [EvSendRelease] else [])
    ++ map EvClose (List.filter isValid
                      (take (Z.to_nat (planes (m_attrs b))) (fds (m_attrs b)))) /\
  planes (m_attrs (fst (destructor b))) = 0 /\
  m_texture (fst (destructor b)) = m_texture b /\
  m_success (fst (destructor b)) = m_success b.
Proof.
  unfold destructor. rewrite snd_bind, fst_bind, closeFDs_trace.
  destruct (closeFDs_keeps b) as (_ & _ & Ht & Hs & _).
  split; [|split; [apply closeFDs_planes | split; assumption]].
  destruct (m_resource b); reflexivity.
Qed.

(** X3: descriptors are closed at most once over the life of a buffer.
    After the destroy handler has run, the destructor closes nothing (it
    only signals the release if a resource is attached), a second run of
    the handler closes nothing, and a second [closeFDs] closes nothing
    after the destructor either. *)
Theorem release_happens_once (b : CDMABuffer) :
  let b1 := fst (onResourceDestroy b) in
  snd (destructor b1) = (if m_resource b then [EvSendRelease] else []) /\
  snd (onResourceDestroy b1) = [EvListenerReset] /\
  closes (snd (destructor b1)) = [] /\
  closes (snd (onResourceDestroy b)) ++ closes (snd (destructor b1))
  = List.filter isValid (take (Z.to_nat (planes (m_attrs b))) (fds (m_attrs b))) /\
  snd (closeFDs (fst (destructor b))) = [].
Proof.
  intros b1.
  assert (Hb1 : b1 = with_listener (fst (closeFDs b)) false).
  { unfold b1, onResourceDestroy. rewrite !fst_bind. reflexivity. }
  assert (Hp : planes (m_attrs b1) = 0).
  { rewrite Hb1. apply closeFDs_planes. }
  assert (Hr : m_resource b1 = m_resource b).
  { rewrite Hb1. apply closeFDs_keeps. }
  assert (Hd : snd (destructor b1) = (if m_resource b then [EvSendRelease] else [])).
  { unfold destructor. rewrite snd_bind, (closeFDs_released b1 Hp), Hr.
    destruct (m_resource b); reflexivity. }
  assert (Hh : snd (onResourceDestroy b)
               = map EvClose (List.filter isValid
                    (take (Z.to_nat (planes (m_attrs b))) (fds (m_attrs b))))
                 ++ [EvListenerReset]).
  { unfold onResourceDestroy. rewrite !snd_bind, closeFDs_trace. reflexivity. }
  split; [exact Hd|]. split; [|split; [|split]].
  - unfold onResourceDestroy. rewrite !snd_bind, (closeFDs_released b1 Hp). reflexivity.
  - rewrite Hd. destruct (m_resource b); reflexivity.
  - rewrite Hd, Hh.
    assert (Hc : forall t1 t2, closes (t1 ++ t2) = closes t1 ++ closes t2).
    { induction t1 as [|e t1 IH]; intros t2; simpl; [reflexivity|].
      destruct e; simpl; rewrite ?IH; reflexivity. }
    rewrite Hc, closes_map_EvClose. simpl.
    destruct (m_resource b); simpl; rewrite !app_nil_r; reflexivity.
  - rewrite closeFDs_released; [reflexivity|].
    unfold destructor. rewrite fst_bind. apply closeFDs_planes.
Qed.

(** X14: a released buffer exports no fence and asks nothing of the
    kernel, even if its import had succeeded: after [closeFDs] on a
    descriptor whose unused slots hold the sentinel, [exportSyncFile]
    returns the empty descriptor, performs no probe and no ioctl, and
    consumes no kernel answer. *)
Theorem exportSyncFile_after_closeFDs (env : Env) (b : CDMABuffer) (k : script) :
  unusedSlotsEmpty (m_attrs b) ->
  exportSyncFile env (fst (closeFDs b)) k = ((-1, k), []).
Proof.
  intros Hinv. unfold exportSyncFile.
  destruct (good (fst (closeFDs b))); cbn [negb]; [|reflexivity].
  destruct (linux env); cbn [negb]; [|reflexivity].
  rewrite (collectSyncFds_all_invalid env _ k (closeFDs_all_invalid b Hinv)).
  reflexivity.
Qed.

Lemma exportSyncFile_after_closeFDs_witness :
  good (fst (closeFDs (Examples.imported Examples.attrs2))) = true /\
  exportSyncFile Examples.envNoProbe (fst (closeFDs (Examples.imported Examples.attrs2)))
                 Examples.allMergesWork
  = ((-1, Examples.allMergesWork), []).
Proof.
  split; [reflexivity|].
  apply (exportSyncFile_after_closeFDs Examples.envNoProbe
           (Examples.imported Examples.attrs2) Examples.allMergesWork).
  intros i fd Hi Hfd.
  change (planes (m_attrs (Examples.imported Examples.attrs2))) with 2 in Hi.
  destruct i as [|[|[|[|i]]]]; cbn in Hfd; try lia; try congruence.
  destruct i; discriminate Hfd.
Defined.

(** ** Cross-device materializer *)


(** X5: a format outside the five supported layouts, the three-byte BGR
    layout included, makes the materializer fail with the buffer
    unchanged and without a single GL call; no texture name is ever
    generated for it. *)
Theorem createCrossGPUTexture_unsupported_format (env : Env) (b : CDMABuffer) :
  formatSupported (format (m_attrs b)) = false ->
  fst (createCrossGPUTexture env b) = (false, b) /\
  List.filter is_gl_event (snd (createCrossGPUTexture env b)) = [].
Proof.
  unfold formatSupported, createCrossGPUTexture, mapPlane.
  intros H. revert H. eff_cases; intros H; try discriminate H; split; reflexivity.
Qed.

Lemma createCrossGPUTexture_unsupported_format_witness :
  fst (createCrossGPUTexture Cases.envDirect (newBuffer Cases.envDirect Cases.attrsBGR))
  = (false, newBuffer Cases.envDirect Cases.attrsBGR) /\
  List.filter is_gl_event
    (snd (createCrossGPUTexture Cases.envDirect (newBuffer Cases.envDirect Cases.attrsBGR)))
  = [].
Proof.
  apply (createCrossGPUTexture_unsupported_format Cases.envDirect
           (newBuffer Cases.envDirect Cases.attrsBGR)).
  reflexivity.
Defined.

(** X6: when the materializer succeeds, the buffer it returns is the
    given one with exactly one change, the attached texture: its name is
    the one [glGenTextures] gave (not zero), its size is the
    descriptor's, its target is [GL_TEXTURE_2D], it is synchronous and
    wraps no image; its type is [TEXTURE_RGBA] exactly for the two
    formats with an alpha channel, ARGB8888 and ABGR8888. *)
Theorem createCrossGPUTexture_success_texture (env : Env) (b : CDMABuffer) :
  fst (fst (createCrossGPUTexture env b)) = true ->
  snd (fst (createCrossGPUTexture env b))
  = with_texture b
      (Some (mkTexture (genTextures env) (size_x (m_attrs b), size_y (m_attrs b))
                       GL_TEXTURE_2D true (textureType (format (m_attrs b))) None)) /\
  genTextures env <> 0 /\
  (textureType (format (m_attrs b)) = TEXTURE_RGBA <->
   format (m_attrs b) = DRM_FORMAT_ARGB8888 \/ format (m_attrs b) = DRM_FORMAT_ABGR8888).
Proof.
  unfold createCrossGPUTexture, mapPlane, uploadMapped.
  intros H. revert H.
  eff_cases; intros H; try discriminate H;
    (split; [reflexivity|]);
    (split; [match goal with E : (genTextures env =? 0) = false |- _ =>
                        apply Z.eqb_neq in E; exact E end|]);
    match goal with E : uploadLayout _ = Layout _ _ _ |- _ =>
                    unfold uploadLayout in E; revert E end;
    unfold textureType;
    repeat match goal with
           | |- context [?x =? ?y] =>
               let E := fresh "E" in
               destruct (x =? y) eqn:E;
               [apply Z.eqb_eq in E | apply Z.eqb_neq in E]
           end;
    cbn [orb]; intros E'; try discriminate E';
    (split; [intros Ht; try discriminate Ht; auto
            |intros [Ht | Ht]; try reflexivity; try congruence;
             rewrite Ht in *; discriminate]).
Qed.

(** X7: the materializer leaves the GL state it touches as it found it
    by default: from an unpack row length of 0 and no texture bound to
    [GL_TEXTURE_2D], both are 0 again when it returns, on every path;
    and from any other row length the value at return is either that
    value (nothing was uploaded) or 0 (the reset after the upload). *)
Theorem createCrossGPUTexture_restores_gl_state (env : Env) (b : CDMABuffer) (cur : Z) :
  let t := snd (createCrossGPUTexture env b) in
  unpackRowLength 0 t = 0 /\
  boundTexture 0 t = 0 /\
  (unpackRowLength cur t = cur \/ unpackRowLength cur t = 0).
Proof.
  unfold createCrossGPUTexture, mapPlane, uploadMapped.
  eff_cases; repeat split; auto.
Qed.

(** X8: the materializer leaks no texture name: when it returns true
    the only name generated and not deleted is the one attached to the
    buffer, and when it returns false no generated name is left
    undeleted, a GL error after the upload included. *)
Theorem createCrossGPUTexture_no_texture_leak (env : Env) (b : CDMABuffer) :
  liveTextures [] (snd (createCrossGPUTexture env b))
  = if fst (fst (createCrossGPUTexture env b)) then [genTextures env] else [].
Proof.
  assert (Hrm : forall id, remove_first Z.eqb id [id] = []).
  { intros id. unfold remove_first. now rewrite Z.eqb_refl. }
  unfold createCrossGPUTexture, mapPlane, uploadMapped.
  eff_cases;
    repeat match goal with H : (genTextures env =? 0) = _ |- _ => rewrite H end;
    rewrite ?Hrm; reflexivity.
Qed.

(** X17: the DRM calls are a fallback only: when the direct mapping of
    the plane descriptor succeeds, or when no source device is known,
    the materializer makes no DRM call at all; and with the direct
    mapping refused and no source device known it fails without any GL
    call. *)
Theorem createCrossGPUTexture_drm_only_as_fallback (env : Env) (b : CDMABuffer) :
  mmap_dmabuf env <> None \/ sourceDevice (m_attrs b) < 0 ->
  List.filter is_drm_event (snd (createCrossGPUTexture env b)) = [] /\
  (mmap_dmabuf env = None ->
   fst (createCrossGPUTexture env b) = (false, b) /\
   List.filter is_gl_event (snd (createCrossGPUTexture env b)) = []).
Proof.
  intros H.
  assert (H' : (exists p, mmap_dmabuf env = Some p) \/
               (mmap_dmabuf env = None /\ (sourceDevice (m_attrs b) <? 0) = true)).
  { destruct (mmap_dmabuf env) as [p|] eqn:E.
    - left. now exists p.
    - right. split; [reflexivity|]. destruct H as [H|H]; [congruence|].
      now apply Z.ltb_lt. }
  clear H. unfold createCrossGPUTexture, mapPlane, uploadMapped.
  destruct H' as [[p Hp] | [Hn Hs]].
  - rewrite Hp. eff_cases; split; try reflexivity; intros; discriminate.
  - rewrite Hn, Hs. eff_cases; repeat split.
Qed.

Lemma createCrossGPUTexture_drm_only_as_fallback_witness :
  List.filter is_drm_event
    (snd (createCrossGPUTexture Cases.envDirect
            (newBuffer Cases.envDirect Examples.attrs1))) = [] /\
  fst (fst (createCrossGPUTexture Cases.envDirect
              (newBuffer Cases.envDirect Examples.attrs1))) = true.
Proof.
  split; [|reflexivity].
  apply (createCrossGPUTexture_drm_only_as_fallback Cases.envDirect
           (newBuffer Cases.envDirect Examples.attrs1)).
  left. simpl. discriminate.
Defined.

Lemma createCrossGPUTexture_success_texture_witness :
  m_texture (snd (fst (createCrossGPUTexture Cases.envDirect
                         (newBuffer Cases.envDirect Examples.attrs1))))
  = Some (mkTexture 3 (64, 64) GL_TEXTURE_2D true TEXTURE_RGBX None).
Proof.
  destruct (createCrossGPUTexture_success_texture Cases.envDirect
              (newBuffer Cases.envDirect Examples.attrs1) eq_refl) as [H _].
  rewrite H. reflexivity.
Defined.

(** X15: for a stride that fits 32 bits and a height below 2^32 the
    byte length the materializer computes is the exact product, without
    wrap-around, so it is zero only for a zero stride or a zero height. *)
Theorem bufferSize_exact (a : SDMABUFAttrs) :
  0 <= slot (strides a) 0 < 2 ^ 32 ->
  0 <= size_y a < 2 ^ 32 ->
  bufferSize a = slot (strides a) 0 * size_y a /\
  (bufferSize a = 0 <-> slot (strides a) 0 = 0 \/ size_y a = 0).
Proof.
  intros Hs Hy. unfold bufferSize, to_size_t.
  assert (E : (slot (strides a) 0 * (size_y a mod 2 ^ 64)) mod 2 ^ 64
              = slot (strides a) 0 * size_y a).
  { rewrite (Z.mod_small (size_y a)) by lia. apply Z.mod_small. nia. }
  rewrite E. split; [reflexivity|]. split.
  - intros H. apply Z.mul_eq_0 in H. exact H.
  - intros [H|H]; rewrite H; lia.
Qed.

Lemma bufferSize_exact_witness : bufferSize Examples.attrs1 = 256 * 64.
Proof.
  destruct (bufferSize_exact Examples.attrs1) as [H _].
  - vm_compute. split; [discriminate | reflexivity].
  - vm_compute. split; [discriminate | reflexivity].
  - exact H.
Defined.

(** ** Constructor and zero-copy importer *)

(** The constructor, path by path: with the materializer's run and the
    importer's run as units. *)
Lemma constructor_paths (env : Env) (attrs_ : SDMABUFAttrs) :
  let mat := createCrossGPUTexture env (newBuffer env attrs_) in
  let imp := importEGLImage env (newBuffer env attrs_) in
  constructor env attrs_
  = if useCPUFallback env attrs_ then
      if fst (fst mat) then
        (with_success (with_opaque (snd (fst mat)) (isFormatOpaque env (format attrs_))) true,
         EvMakeEGLCurrent :: cpuFallbackLog :: snd mat
         ++ [EvLog LOG "CDMABuffer: Cross-GPU texture created successfully via CPU copy"])
      else
        (fst imp,
         EvMakeEGLCurrent :: cpuFallbackLog :: snd mat ++ cpuFallbackFailedLog :: snd imp)
    else
      (fst imp,
       EvMakeEGLCurrent
       :: (if crossGPU attrs_ && secondaryAvailable env && negb (allowCPUFallback env)
           then [EvLog LOG "CDMABuffer: Cross-GPU buffer detected, CPU fallback disabled; trying EGL import"]
           else [])
       ++ snd imp).
Proof.
  cbv zeta.
  pose proof (createCrossGPUTexture_result env (newBuffer env attrs_)) as Hres.
  cbn zeta in Hres. destruct Hres as (Hok & Hfail & Hattrs & _ & _).
  change (m_attrs (newBuffer env attrs_)) with attrs_ in Hattrs.
  unfold constructor. change (m_attrs (newBuffer env attrs_)) with attrs_.
  destruct (useCPUFallback env attrs_).
  - destruct (createCrossGPUTexture env (newBuffer env attrs_)) as [[ok b1] tm].
    cbn [fst snd] in *. destruct ok.
    + destruct (Hok eq_refl) as (tex & Htex & Hid & _). apply Z.eqb_neq in Hid.
      unfold log, bind, emit, ret. cbn [negb].
      change (m_texture (with_opaque b1 (isFormatOpaque env (format (m_attrs b1)))))
        with (m_texture b1).
      rewrite Htex, Hid. cbn [negb].
      change (m_success (with_success ?x true)) with true. cbv iota.
      rewrite Hattrs. reflexivity.
    + rewrite (Hfail eq_refl).
      unfold log, bind, emit, ret. cbn [negb].
      destruct (importEGLImage env (newBuffer env attrs_)) as [bi ti]. reflexivity.
  - unfold log, bind, emit, ret.
    destruct (importEGLImage env (newBuffer env attrs_)) as [bi ti].
    destruct (crossGPU attrs_ && secondaryAvailable env && negb (allowCPUFallback env));
      reflexivity.
Qed.

Lemma closes_app (t1 t2 : trace) : closes (t1 ++ t2) = closes t1 ++ closes t2.
Proof.
  induction t1 as [|e t1 IH]; simpl; [reflexivity|].
  destruct e; simpl; rewrite ?IH; reflexivity.
Qed.

Lemma createCrossGPUTexture_closes (env : Env) (b : CDMABuffer) :
  closes (snd (createCrossGPUTexture env b)) = [].
Proof.
  unfold createCrossGPUTexture, mapPlane, uploadMapped. eff_cases; reflexivity.
Qed.

Lemma createCrossGPUTexture_keeps (env : Env) (b : CDMABuffer) :
  resourceDestroy (snd (fst (createCrossGPUTexture env b))) = resourceDestroy b /\
  m_resource (snd (fst (createCrossGPUTexture env b))) = m_resource b /\
  size (snd (fst (createCrossGPUTexture env b))) = size b.
Proof.
  unfold createCrossGPUTexture, mapPlane, uploadMapped. eff_cases; repeat split.
Qed.

(** What the importer leaves alone, and what it does to the descriptor. *)
Lemma importEGLImage_keeps (env : Env) (b : CDMABuffer) :
  closes (snd (importEGLImage env b)) = [] /\
  resourceDestroy (fst (importEGLImage env b)) = resourceDestroy b /\
  m_resource (fst (importEGLImage env b)) = m_resource b /\
  size (fst (importEGLImage env b)) = size b /\
  m_attrs (fst (importEGLImage env b))
  = match createEGLImage env 0%nat (m_attrs b) with
    | Some _ => m_attrs b
    | None => set_modifier (m_attrs b) DRM_FORMAT_MOD_INVALID
    end.
Proof. unfold importEGLImage, adoptImage. eff_cases; repeat split. Qed.

(** X9: construction changes the descriptor in one way only: the
    modifier is replaced by [DRM_FORMAT_MOD_INVALID] exactly when a
    second image request was made, and it stays replaced whether that
    request succeeded or not; planes, descriptors, strides, offsets,
    format and size are never touched. *)
Theorem constructor_descriptor (env : Env) (attrs_ : SDMABUFAttrs) :
  m_attrs (fst (constructor env attrs_))
  = if (length (eglRequests (snd (constructor env attrs_))) =? 2)%nat
    then set_modifier attrs_ DRM_FORMAT_MOD_INVALID
    else attrs_.
Proof.
  pose proof (createCrossGPUTexture_events env (newBuffer env attrs_)) as Hev.
  assert (Hmat : eglRequests (snd (createCrossGPUTexture env (newBuffer env attrs_))) = []).
  { apply eglRequests_none. eapply Forall_impl; [exact Hev|]. simpl. tauto. }
  pose proof (createCrossGPUTexture_result env (newBuffer env attrs_)) as Hres.
  cbn zeta in Hres. destruct Hres as (_ & _ & Hattrs & _ & _).
  destruct (importEGLImage_keeps env (newBuffer env attrs_)) as (_ & _ & _ & _ & Himp).
  pose proof (importEGLImage_requests env (newBuffer env attrs_)) as Hreq.
  change (m_attrs (newBuffer env attrs_)) with attrs_ in *.
  rewrite constructor_paths. cbv zeta.
  destruct (useCPUFallback env attrs_).
  - destruct (fst (fst (createCrossGPUTexture env (newBuffer env attrs_)))); cbn [fst snd].
    + cbn [eglRequests]. rewrite eglRequests_app, Hmat. cbn. exact Hattrs.
    + cbn [eglRequests]. rewrite eglRequests_app, Hmat. cbn [app eglRequests].
      rewrite Himp, Hreq. destruct (createEGLImage env 0%nat attrs_); reflexivity.
  - cbn [fst snd eglRequests]. rewrite eglRequests_app, Himp, Hreq.
    destruct (crossGPU attrs_ && secondaryAvailable env && negb (allowCPUFallback env));
      destruct (createEGLImage env 0%nat attrs_); reflexivity.
Qed.

(** X10: the constructor never closes a descriptor, whether the import
    succeeds or fails; it leaves the destroy listener registered and the
    protocol resource attached, and the size of the buffer is the size
    of the descriptor. *)
Theorem constructor_keeps_descriptors_open (env : Env) (attrs_ : SDMABUFAttrs) :
  closes (snd (constructor env attrs_)) = [] /\
  fds (m_attrs (fst (constructor env attrs_))) = fds attrs_ /\
  planes (m_attrs (fst (constructor env attrs_))) = planes attrs_ /\
  resourceDestroy (fst (constructor env attrs_)) = true /\
  m_resource (fst (constructor env attrs_)) = true /\
  size (fst (constructor env attrs_)) = (size_x attrs_, size_y attrs_).
Proof.
  pose proof (createCrossGPUTexture_closes env (newBuffer env attrs_)) as Hmat.
  destruct (createCrossGPUTexture_keeps env (newBuffer env attrs_)) as (Hml & Hmr & Hms).
  pose proof (createCrossGPUTexture_result env (newBuffer env attrs_)) as Hres.
  cbn zeta in Hres. destruct Hres as (_ & _ & Hma & _ & _).
  destruct (importEGLImage_keeps env (newBuffer env attrs_)) as (Hc & Hl & Hr & Hs & Ha).
  change (m_attrs (newBuffer env attrs_)) with attrs_ in *.
  rewrite constructor_paths. cbv zeta.
  destruct (useCPUFallback env attrs_).
  - destruct (fst (fst (createCrossGPUTexture env (newBuffer env attrs_)))); cbn [fst snd].
    + cbn [closes]. rewrite closes_app, Hmat.
      unfold with_success, with_opaque.
      cbn [m_attrs resourceDestroy m_resource size].
      rewrite Hml, Hmr, Hms, Hma. repeat split.
    + cbn [closes]. rewrite closes_app, Hmat. cbn [app closes].
      rewrite Hc, Hl, Hr, Hs, Ha.
      destruct (createEGLImage env 0%nat attrs_); repeat split.
  - cbn [fst snd closes]. rewrite closes_app, Hc, Hl, Hr, Hs, Ha.
    destruct (crossGPU attrs_ && secondaryAvailable env && negb (allowCPUFallback env));
      destruct (createEGLImage env 0%nat attrs_); repeat split.
Qed.



(** X18: the retry does not depend on the modifier.  When the first
    image request fails for a descriptor whose modifier is already
    [DRM_FORMAT_MOD_INVALID], the importer asks once more for the very
    same descriptor and leaves the descriptor as it was. *)
Theorem importEGLImage_retries_implicit (env : Env) (b : CDMABuffer) :
  createEGLImage env 0%nat (m_attrs b) = None ->
  modifier (m_attrs b) = DRM_FORMAT_MOD_INVALID ->
  eglRequests (snd (importEGLImage env b)) = [m_attrs b; m_attrs b] /\
  m_attrs (fst (importEGLImage env b)) = m_attrs b.
Proof.
  intros H0 Hm.
  assert (E : set_modifier (m_attrs b) DRM_FORMAT_MOD_INVALID = m_attrs b).
  { rewrite <- Hm. destruct (m_attrs b). reflexivity. }
  split.
  - rewrite importEGLImage_requests, H0, E. reflexivity.
  - unfold importEGLImage, adoptImage. rewrite H0.
    eff_cases; exact E.
Qed.

Lemma importEGLImage_retries_implicit_witness :
  eglRequests (snd (importEGLImage (Examples.envImportFails false)
                      (newBuffer (Examples.envImportFails false) Cases.attrsImplicit)))
  = [Cases.attrsImplicit; Cases.attrsImplicit].
Proof.
  destruct (importEGLImage_retries_implicit (Examples.envImportFails false)
              (newBuffer (Examples.envImportFails false) Cases.attrsImplicit)
              eq_refl eq_refl) as [H _].
  exact H.
Defined.

(** X19: the importer logs at warning level exactly when diagnostic
    logging is on, the first image request failed and the modifier was
    not the implicit one; with [HYPRLAND_DMABUF_LOG] unset it never
    warns. *)
Theorem importEGLImage_warns_iff (env : Env) (b : CDMABuffer) :
  existsb is_warning (snd (importEGLImage env b))
  = DMABUF_LOG env
    && negb (modifier (m_attrs b) =? DRM_FORMAT_MOD_INVALID)
    && match createEGLImage env 0%nat (m_attrs b) with Some _ => false | None => true end.
Proof.
  unfold importEGLImage, adoptImage.
  destruct (DMABUF_LOG env);
    destruct (modifier (m_attrs b) =? DRM_FORMAT_MOD_INVALID);
    eff_cases; reflexivity.
Qed.

(** ** Fence exporter *)

Lemma doIoctl_events (fd : Z) (request : ioctl_request) (k : script) :
  Forall (fun e => e = EvIoctl fd request) (snd (doIoctl fd request k)).
Proof.
  induction k as [|r k IH]; cbn [doIoctl].
  - repeat constructor.
  - unfold bind, emit.
    destruct ((r_ret r =? -1) && ((r_errno r =? EINTR) || (r_errno r =? EAGAIN))).
    + destruct (doIoctl fd request k) as [x t]. cbn [snd] in *.
      constructor; [reflexivity | exact IH].
    + repeat constructor.
Qed.

(** A granted request is answered at the first try. *)
Lemma doIoctl_granted (fd : Z) (request : ioctl_request) (r : reply) (k : script) :
  r_ret r = 0 ->
  doIoctl fd request (r :: k) = ((0, r_out r, k), [EvIoctl fd request]).
Proof. intros H. cbn [doIoctl]. rewrite H. reflexivity. Qed.

Lemma last_cons_default (x d : Z) (l : list Z) :
  List.last (x :: l) d = List.last l x.
Proof.
  revert x d. induction l as [|y l IH]; intros x d; [reflexivity|].
  change (List.last (x :: y :: l) d) with (List.last (y :: l) d).
  rewrite (IH y d). symmetry. apply IH.
Qed.

(** The merge loop over a concatenation is the loop over the first part
    followed by the loop over the second, started from the accumulator
    and the kernel state the first part left. *)
Lemma mergeSyncFds_app (l1 l2 : list Z) : forall (syncFd : Z) (k : script),
  mergeSyncFds syncFd (l1 ++ l2) k
  = (let '((acc, k1), t1) := mergeSyncFds syncFd l1 k in
     let '(r, t2) := mergeSyncFds acc l2 k1 in (r, t1 ++ t2)).
Proof.
  induction l1 as [|fd l1 IH]; intros syncFd k; cbn [app mergeSyncFds].
  - unfold ret. destruct (mergeSyncFds syncFd l2 k). reflexivity.
  - destruct (negb (isValid syncFd)); [apply IH|].
    unfold bind. destruct (doIoctl syncFd (SYNC_IOC_MERGE fd) k) as [[[res out] k1] t].
    destruct (res =? 0); rewrite IH.
    + destruct (mergeSyncFds out l1 k1) as [[acc k2] t1].
      destruct (mergeSyncFds acc l2 k2). now rewrite app_assoc.
    + destruct (mergeSyncFds (-1) l1 k1) as [[acc k2] t1].
      destruct (mergeSyncFds acc l2 k2). now rewrite app_assoc.
Qed.

(** The merge loop from a valid accumulator when every merge is
    granted. *)
Lemma mergeSyncFds_granted_from (syncFds : list Z) :
  forall (acc : Z) (rs : list reply) (k' : script),
  isValid acc = true ->
  Forall (fun r => r_ret r = 0 /\ r_out r <> -1) rs ->
  length rs = length syncFds ->
  mergeSyncFds acc syncFds (rs ++ k')
  = ((List.last (map r_out rs) acc, k'), mergeRequests acc (map r_out rs) syncFds).
Proof.
  induction syncFds as [|fd syncFds IH]; intros acc rs k' Hv Hrs Hlen.
  - destruct rs; [reflexivity | discriminate Hlen].
  - destruct rs as [|r rs]; [discriminate Hlen|].
    inversion Hrs as [|? ? [Hret Hout] Hrs']; subst.
    cbn [mergeSyncFds app]. rewrite Hv. cbn [negb].
    rewrite (doIoctl_granted _ _ _ _ Hret). unfold bind. cbn [Z.eqb].
    rewrite IH; [| | exact Hrs' | now injection Hlen].
    + cbn [map]. rewrite last_cons_default. reflexivity.
    + unfold isValid. apply Z.eqb_neq in Hout. now rewrite Hout.
Qed.

(** X11: when the kernel grants every merge, the fold over the collected
    fences is a left fold: the first fence seeds the accumulator, each
    further fence is merged into the accumulator by one request, and the
    result is the fence of the last merge (the seed itself when there is
    a single fence, with no request at all); exactly one kernel answer
    is consumed per merge. *)
Theorem mergeSyncFds_all_granted (syncFds : list Z) :
  forall (seed : Z) (rs : list reply) (k' : script),
  isValid seed = true ->
  Forall (fun r => r_ret r = 0 /\ r_out r <> -1) rs ->
  length rs = length syncFds ->
  mergeSyncFds (-1) (seed :: syncFds) (rs ++ k')
  = ((List.last (map r_out rs) seed, k'), mergeRequests seed (map r_out rs) syncFds).
Proof.
  intros seed rs k' Hv Hrs Hlen. cbn [mergeSyncFds].
  exact (mergeSyncFds_granted_from syncFds seed rs k' Hv Hrs Hlen).
Qed.

Lemma mergeSyncFds_all_granted_witness :
  mergeSyncFds (-1) [10; 11; 12] (Cases.twoMerges ++ Cases.leftOver)
  = ((21, Cases.leftOver),
     [EvIoctl 10 (SYNC_IOC_MERGE 11); EvIoctl 20 (SYNC_IOC_MERGE 12)]).
Proof.
  apply (mergeSyncFds_all_granted [11; 12] 10 Cases.twoMerges Cases.leftOver).
  - reflexivity.
  - repeat constructor; simpl; lia.
  - reflexivity.
Defined.

(** X12: a failure of the last merge step always gives the empty
    descriptor, whatever happened before it: if the accumulator is valid
    when the last fence is reached and the merge request for it does not
    return 0, the result of the whole fold is [-1]. *)
Theorem mergeSyncFds_last_failure (syncFd : Z) (l : list Z) (fd : Z) (k : script) :
  isValid (fst (fst (mergeSyncFds syncFd l k))) = true ->
  fst (fst (fst (doIoctl (fst (fst (mergeSyncFds syncFd l k))) (SYNC_IOC_MERGE fd)
                         (snd (fst (mergeSyncFds syncFd l k)))))) <> 0 ->
  fst (fst (mergeSyncFds syncFd (l ++ [fd]) k)) = -1.
Proof.
  intros Hv Hres. rewrite mergeSyncFds_app.
  destruct (mergeSyncFds syncFd l k) as [[acc k1] t1]. cbn [fst snd] in *.
  cbn [mergeSyncFds]. rewrite Hv. cbn [negb]. unfold bind.
  destruct (doIoctl acc (SYNC_IOC_MERGE fd) k1) as [[[res out] k2] t2].
  cbn [fst snd] in *. apply Z.eqb_neq in Hres. rewrite Hres. reflexivity.
Qed.

Lemma mergeSyncFds_last_failure_witness :
  fst (fst (mergeSyncFds (-1) ([10; 11] ++ [12]) [Examples.ok 20; Examples.refused])) = -1.
Proof.
  apply (mergeSyncFds_last_failure (-1) [10; 11] 12 [Examples.ok 20; Examples.refused]).
  - reflexivity.
  - vm_compute. discriminate.
Defined.

(** X13: the collecting loop only ever touches valid plane descriptors:
    every probe and every export request it makes is for a descriptor of
    the array other than [-1]; it yields at most one fence per valid
    descriptor; and when readability is not probed (no renderer, or an
    Intel one) it makes no probe at all. *)
Theorem collectSyncFds_touches_valid_only (env : Env) (l : list Z) : forall k : script,
  Forall (fun e => exists fd,
              (e = EvIsReadable fd \/ e = EvIoctl fd DMA_BUF_IOCTL_EXPORT_SYNC_FILE) /\
              fd <> -1 /\ In fd l)
         (snd (collectSyncFds env l k)) /\
  (length (fst (fst (collectSyncFds env l k))) <= length (List.filter isValid l))%nat /\
  (probesReadability env = false ->
   List.filter is_probe (snd (collectSyncFds env l k)) = []).
Proof.
  induction l as [|fd rest IH]; intros k.
  - repeat split; [constructor | simpl; lia].
  - cbn [collectSyncFds List.filter]. unfold isValid at 1.
    assert (Hweak : forall t,
               Forall (fun e => exists fd0,
                           (e = EvIsReadable fd0 \/
                            e = EvIoctl fd0 DMA_BUF_IOCTL_EXPORT_SYNC_FILE) /\
                           fd0 <> -1 /\ In fd0 rest) t ->
               Forall (fun e => exists fd0,
                           (e = EvIsReadable fd0 \/
                            e = EvIoctl fd0 DMA_BUF_IOCTL_EXPORT_SYNC_FILE) /\
                           fd0 <> -1 /\ In fd0 (fd :: rest)) t).
    { intros t Ht. eapply Forall_impl; [exact Ht|].
      intros e (fd0 & He & Hne & Hin). exists fd0. repeat split; auto. now right. }
    destruct (fd =? -1) eqn:Hfd; cbn [negb].
    + destruct (IH k) as (H1 & H2 & H3). repeat split; auto.
    + apply Z.eqb_neq in Hfd. fold (probesReadability env).
      assert (Hexp : forall k0 : script,
                 Forall (fun e => exists fd0,
                             (e = EvIsReadable fd0 \/
                              e = EvIoctl fd0 DMA_BUF_IOCTL_EXPORT_SYNC_FILE) /\
                             fd0 <> -1 /\ In fd0 (fd :: rest))
                        (snd (doIoctl fd DMA_BUF_IOCTL_EXPORT_SYNC_FILE k0)) /\
                 List.filter is_probe (snd (doIoctl fd DMA_BUF_IOCTL_EXPORT_SYNC_FILE k0)) = []).
      { intros k0. pose proof (doIoctl_events fd DMA_BUF_IOCTL_EXPORT_SYNC_FILE k0) as He.
        induction He as [|e t -> _ [IH1 IH2]]; [split; [constructor | reflexivity]|].
        split; [|exact IH2]. constructor; [|exact IH1].
        exists fd. repeat split; auto. now left. }
      assert (Hprobe : exists fd0,
                 (EvIsReadable fd = EvIsReadable fd0 \/
                  EvIsReadable fd = EvIoctl fd0 DMA_BUF_IOCTL_EXPORT_SYNC_FILE) /\
                 fd0 <> -1 /\ In fd0 (fd :: rest)).
      { exists fd. repeat split; auto. now left. }
      destruct (probesReadability env) eqn:Hp; unfold bind, emit, ret; cbn [fst snd app].
      * destruct (isReadable env fd).
        -- destruct (IH k) as (H1 & H2 & _).
           destruct (collectSyncFds env rest k) as [[fs k1] t1]. cbn [fst snd] in *.
           repeat split; [constructor; auto | cbn [length]; lia | discriminate].
        -- destruct (Hexp k) as [He _].
           destruct (doIoctl fd DMA_BUF_IOCTL_EXPORT_SYNC_FILE k) as [[[res out] k1] t1].
           destruct (IH k1) as (H1 & H2 & _).
           destruct (collectSyncFds env rest k1) as [[fs k2] t2]. cbn [fst snd] in *.
           destruct (res =? 0); cbn [fst snd length];
             (repeat split; [| cbn [length]; lia | discriminate]);
             rewrite ?app_nil_r; constructor; auto; apply Forall_app; auto.
      * destruct (Hexp k) as [He Hf].
        destruct (doIoctl fd DMA_BUF_IOCTL_EXPORT_SYNC_FILE k) as [[[res out] k1] t1].
        destruct (IH k1) as (H1 & H2 & H3).
        destruct (collectSyncFds env rest k1) as [[fs k2] t2]. cbn [fst snd] in *.
        destruct (res =? 0); cbn [fst snd length];
          (repeat split; [| cbn [length]; lia |]);
          rewrite ?app_nil_r; try (apply Forall_app; auto);
          intros _; rewrite List.filter_app, Hf, (H3 eq_refl); reflexivity.
Qed.

(** X20: end to end, on a successfully imported buffer on Linux: if the
    planes yield the fences [seed :: syncFds] and the kernel then grants
    one merge per further fence, [exportSyncFile] returns the fence of
    the last merge (the single fence itself when there is only one), its
    trace is the collecting loop's followed by one merge request per
    further fence, and the kernel answers after the merges are left
    unconsumed. *)
Theorem exportSyncFile_one_merged_fence
        (env : Env) (b : CDMABuffer) (k : script)
        (seed : Z) (syncFds : list Z) (rs : list reply) (k' : script) :
  good b = true ->
  linux env = true ->
  fst (collectSyncFds env (fds (m_attrs b)) k) = (seed :: syncFds, rs ++ k') ->
  isValid seed = true ->
  Forall (fun r => r_ret r = 0 /\ r_out r <> -1) rs ->
  length rs = length syncFds ->
  exportSyncFile env b k
  = ((List.last (map r_out rs) seed, k'),
     snd (collectSyncFds env (fds (m_attrs b)) k)
     ++ mergeRequests seed (map r_out rs) syncFds).
Proof.
  intros Hg Hl Hc Hv Hrs Hlen. unfold exportSyncFile. rewrite Hg, Hl. cbn [negb].
  unfold bind. destruct (collectSyncFds env (fds (m_attrs b)) k) as [p t1].
  cbn [fst snd] in *. subst p. cbn [mergeSyncFds].
  rewrite (mergeSyncFds_granted_from syncFds seed rs k' Hv Hrs Hlen). reflexivity.
Qed.

Lemma exportSyncFile_one_merged_fence_witness :
  exportSyncFile Examples.envNoProbe (Examples.imported Examples.attrs3)
                 Examples.allMergesWork
  = ((21, []),
     [EvIoctl 3 DMA_BUF_IOCTL_EXPORT_SYNC_FILE;
      EvIoctl 4 DMA_BUF_IOCTL_EXPORT_SYNC_FILE;
      EvIoctl 5 DMA_BUF_IOCTL_EXPORT_SYNC_FILE;
      EvIoctl 10 (SYNC_IOC_MERGE 11);
      EvIoctl 20 (SYNC_IOC_MERGE 12)]).
Proof.
  apply (exportSyncFile_one_merged_fence Examples.envNoProbe
           (Examples.imported Examples.attrs3) Examples.allMergesWork
           10 [11; 12] [Examples.ok 20; Examples.ok 21] []).
  - reflexivity.
  - reflexivity.
  - reflexivity.
  - reflexivity.
  - repeat constructor; simpl; lia.
  - reflexivity.
Defined.
